(** * GCOPTER: perception-aware progress checker and replanning trigger

    Shallow embedding of [gcopter/pa_checker.hpp] (class [Pa_checker]) and of
    the goal / planning callbacks of [src/global_planning.cpp]
    (class [GlobalPlanner]).

    Number model: every C++ [double] is a real number of the Standard
    Library ([R]); rounding, NaN and infinities are not modelled, except the
    infinite cost that the optimiser returns on failure, which is a
    constructor of its own.  Comparisons are the decidable comparisons of
    [R], turned into booleans.

    Two expressions whose value the rounding of binary64 changes in a way
    that matters are given a second time, in module [Double], with the
    machine operations: the stopping-distance test of [check] (the square
    of a tiny speed underflows to zero) and the goal height of
    [targetCallBack]. *)

From Stdlib Require Import Reals Lra List Bool Arith Lia ZArith Sorted Machin.
From Stdlib Require Floats.PrimFloat.
From Equations Require Import Equations.
Import ListNotations.

Open Scope R_scope.

(** ** Boolean comparisons on [double] *)

Definition Rleb (a b : R) : bool := if Rle_dec a b then true else false.
Definition Rgtb (a b : R) : bool := if Rgt_dec a b then true else false.
Definition Rltb (a b : R) : bool := if Rlt_dec a b then true else false.

(** ** Eigen: the part of the vector and quaternion interface that is used *)

Module Eigen.

Record Vector3d := mkV3 { vx : R; vy : R; vz : R }.
Record Vector4d := mkV4 { q0 : R; q1 : R; q2 : R; q3 : R }.

(** [Eigen::Quaterniond q(w, x, y, z)] *)
Record Quaterniond := mkQuat { qw : R; qx : R; qy : R; qz : R }.

Definition Zero : Vector3d := mkV3 0 0 0.
Definition UnitX : Vector3d := mkV3 1 0 0.

Definition vadd (a b : Vector3d) : Vector3d :=
  mkV3 (vx a + vx b) (vy a + vy b) (vz a + vz b).
Definition vsub (a b : Vector3d) : Vector3d :=
  mkV3 (vx a - vx b) (vy a - vy b) (vz a - vz b).
Definition vscale (k : R) (a : Vector3d) : Vector3d :=
  mkV3 (k * vx a) (k * vy a) (k * vz a).
Definition vdiv (a : Vector3d) (k : R) : Vector3d :=
  mkV3 (vx a / k) (vy a / k) (vz a / k).
Definition dot (a b : Vector3d) : R :=
  vx a * vx b + vy a * vy b + vz a * vz b.
Definition cross (a b : Vector3d) : Vector3d :=
  mkV3 (vy a * vz b - vz a * vy b)
       (vz a * vx b - vx a * vz b)
       (vx a * vy b - vy a * vx b).

Definition squaredNorm (a : Vector3d) : R := dot a a.
Definition norm (a : Vector3d) : R := sqrt (squaredNorm a).

(** [normalized()] returns the vector itself when its squared norm is not
    positive. *)
Definition normalized (a : Vector3d) : Vector3d :=
  if Rgtb (squaredNorm a) 0 then vdiv a (sqrt (squaredNorm a)) else a.

Definition qvec (q : Quaterniond) : Vector3d := mkV3 (qx q) (qy q) (qz q).

(** [q * v]: the rotation of [v] by [q], as Eigen computes it. *)
Definition rotate (q : Quaterniond) (v : Vector3d) : Vector3d :=
  let uv := cross (qvec q) v in
  let uv := vadd uv uv in
  vadd (vadd v (vscale (qw q) uv)) (cross (qvec q) uv).

End Eigen.
Import Eigen.

(** ** Trajectory *)

(** Modelled from the spec: [trajectory.hpp] ([Trajectory<5>]) is not among
    the sources.  A trajectory is a piecewise, time-parameterised curve over
    [[0, T_total]]; it exposes its number of pieces, its total duration and
    the position at a query time.  [clear()] removes every piece. *)
Record Piece := mkPiece { pieceDuration : R; piecePos : R -> Vector3d }.

Definition Trajectory := list Piece.

Module Traj.

(** Modelled from the spec: [clear()] leaves a trajectory without pieces. *)
Definition clear (traj : Trajectory) : Trajectory := [].

(** Modelled from the spec: the number of pieces. *)
Definition getPieceNum (traj : Trajectory) : nat := length traj.

(** Modelled from the spec: [T_total], the sum of the durations of the
    pieces. *)
Fixpoint getTotalDuration (traj : Trajectory) : R :=
  match traj with
  | [] => 0
  | p :: rest => pieceDuration p + getTotalDuration rest
  end.

(** Modelled from the spec: the position at time [t]; the piece that
    contains [t] is evaluated at its local time, and the last piece also
    answers for later times. *)
Fixpoint getPos (traj : Trajectory) (t : R) : Vector3d :=
  match traj with
  | [] => Zero
  | [p] => piecePos p t
  | p :: rest =>
      if Rleb t (pieceDuration p) then piecePos p t
      else getPos rest (t - pieceDuration p)
  end.

End Traj.

(** ** pa_checker.hpp *)

Module pa_checker.

Record Pa_checker := mkPa_checker {
  progress_t : R;
  a_max : R;
  max_dist : R;
  safe : bool;
  angle : R
}.

(** The constructor [Pa_checker(progress, alpha, amax, maxdist, safeFlag)]. *)
Definition make (progress alpha amax maxdist : R) (safeFlag : bool) : Pa_checker :=
  mkPa_checker progress amax maxdist safeFlag alpha.

Definition set_progress_t (c : Pa_checker) (t : R) : Pa_checker :=
  mkPa_checker t (a_max c) (max_dist c) (safe c) (angle c).

Definition set_safe (c : Pa_checker) (b : bool) : Pa_checker :=
  mkPa_checker (progress_t c) (a_max c) (max_dist c) b (angle c).

(** The condition of the [if] of the scan (lines 38 to 41): the sample of
    the trajectory at time [t], seen from [pos] with boresight [h]. *)
Definition in_view (c : Pa_checker) (traj : Trajectory) (h pos : Vector3d) (t : R) : bool :=
  let check_pos := vsub (Traj.getPos traj t) pos in
  let unit_check := normalized check_pos in
  Rgtb (dot h unit_check) (cos (angle c / 2)) && Rleb (dot h check_pos) (max_dist c).

(** The [else] branch (lines 48 and 49): the stopping-distance decision,
    taken from the marker the checker holds at that moment.  The products
    are exact here; [Double.safe_flag] is line 49 with the machine
    operations, where the square of a tiny speed is zero. *)
Definition decide_safe (c : Pa_checker) (traj : Trajectory) (pos : Vector3d) (speed : R) : Pa_checker :=
  let s := norm (vsub (Traj.getPos traj (progress_t c)) pos) in
  set_safe c (if Rgtb (speed * speed - 2 * a_max c * s) 0 then false else true).

(** Number of iterations the [for] loop has left when its variable is [t]. *)
Definition scan_measure (traj : Trajectory) (t : R) : nat :=
  Z.to_nat (up ((Traj.getTotalDuration traj - t) * 20)).

(** One more iteration leaves strictly fewer: [up] is the integer just above
    its argument, and the argument drops by one. *)
Ltac scan_measure_decreases :=
  unfold scan_measure;
  match goal with
  | Hle : ?t <= Traj.getTotalDuration ?traj |- _ =>
      let x := fresh "x" in
      set (x := (Traj.getTotalDuration traj - t) * 20);
      replace ((Traj.getTotalDuration traj - (t + 0.05)) * 20) with (x - 1)
        by (unfold x; lra);
      assert (0 <= x) by (unfold x; lra);
      destruct (archimed x); destruct (archimed (x - 1));
      assert (0 < up x)%Z by (apply lt_IZR; lra);
      assert (up (x - 1) < up x)%Z by (apply lt_IZR; lra);
      lia
  end.

(** The [for] loop of [check], from the value [t] of its variable on. *)
Equations? scan (traj : Trajectory) (h pos : Vector3d) (speed : R)
           (c : Pa_checker) (t : R) : Pa_checker
  by wf (scan_measure traj t) lt :=
  scan traj h pos speed c t with Rle_dec t (Traj.getTotalDuration traj) := {
    | left _ =>
        if in_view c traj h pos t
        then scan traj h pos speed (set_progress_t c t) (t + 0.05)
        else decide_safe c traj pos speed
    | right _ => c }.
Proof. scan_measure_decreases. Qed.

(** Line 30: the marker is raised to the elapsed time. *)
Definition clamp (c : Pa_checker) (delta : R) : Pa_checker :=
  if Rleb (progress_t c) delta then set_progress_t c delta else c.

(** Lines 32 to 34: the body x axis, rotated into the world frame. *)
Definition boresight (quat : Vector4d) : Vector3d :=
  let q := mkQuat (q0 quat) (q1 quat) (q2 quat) (q3 quat) in
  let h := rotate q UnitX in
  normalized h.

Definition check (c : Pa_checker) (traj : Trajectory) (quat : Vector4d)
           (pos : Vector3d) (speed delta : R) : Pa_checker :=
  let c := clamp c delta in
  let h := boresight quat in
  scan traj h pos speed c (progress_t c + 0.01).

Definition getProgress (c : Pa_checker) : R := progress_t c.

Definition getSafeFlag (c : Pa_checker) : bool := safe c.

Definition clear (c : Pa_checker) : Pa_checker :=
  mkPa_checker 0 (a_max c) (max_dist c) false (angle c).

(** *** Notions used to state the properties of [check] *)

(** The value of the loop variable at its iteration number [k], when the
    loop starts from [t0]. *)
Fixpoint sample (t0 : R) (k : nat) : R :=
  match k with
  | O => t0
  | S j => sample t0 j + 0.05
  end.

(** The marker when the loop reaches its iteration number [k] after having
    accepted every earlier sample. *)
Definition marker_at (c : Pa_checker) (t0 : R) (k : nat) : Pa_checker :=
  match k with
  | O => c
  | S j => set_progress_t c (sample t0 j)
  end.

(** The sample number [k] is the first one that fails the test. *)
Definition first_failure (traj : Trajectory) (h pos : Vector3d) (c : Pa_checker) (t0 : R)
           (k : nat) : Prop :=
  (forall j, (j < k)%nat -> in_view c traj h pos (sample t0 j) = true) /\
  sample t0 k <= Traj.getTotalDuration traj /\
  in_view c traj h pos (sample t0 k) = false.

(** No sample within the duration fails the test. *)
Definition no_failure (traj : Trajectory) (h pos : Vector3d) (c : Pa_checker) (t0 : R)
  : Prop :=
  forall k, sample t0 k <= Traj.getTotalDuration traj ->
            in_view c traj h pos (sample t0 k) = true.

(** The inputs of one call of [check]. *)
Record Tick := mkTick {
  tick_quat : Vector4d;
  tick_pos : Vector3d;
  tick_speed : R;
  tick_delta : R
}.

Definition check_tick (traj : Trajectory) (c : Pa_checker) (k : Tick) : Pa_checker :=
  check c traj (tick_quat k) (tick_pos k) (tick_speed k) (tick_delta k).

(** The values of [getProgress()] after each call of a sequence of calls. *)
Fixpoint progress_trace (traj : Trajectory) (c : Pa_checker) (ticks : list Tick) : list R :=
  match ticks with
  | [] => []
  | k :: rest =>
      let c' := check_tick traj c k in
      getProgress c' :: progress_trace traj c' rest
  end.

End pa_checker.

(** ** Binary64 forms *)

Module Double.

Import PrimFloat.

#[local] Set Warnings "-inexact-float".

(** Line 49 of [pa_checker.hpp] as the machine computes it,
    [safe = (speed*speed - 2* a_max * s )> 0 ? false : true], every
    operation being the binary64 one. *)
Definition safe_flag (speed a_max s : float) : bool :=
  if ltb 0 (speed * speed - 2 * a_max * s) then false else true.

(** Lines 252 to 254 of [global_planning.cpp] as the machine computes
    them: [zGoal] from the lower and upper bound of the map, the dilation
    radius and the orientation field. *)
Definition zGoal (lo hi radius oz : float) : float :=
  lo + radius + abs oz * (hi - lo - 2 * radius).

(** The values used below: zero, one, the configured maximum deceleration,
    and a positive speed whose square underflows to zero. *)
Definition zero : float := 0.
Definition one : float := 1.
Definition four : float := 4.
Definition tiny_speed : float := 1e-200.

(** An upper bound of the map and a dilation radius. *)
Definition upper : float := 2.5.
Definition radius : float := 0.2.

End Double.

(** ** global_planning.cpp *)

(** Modelled from the spec: [voxel_map.hpp] is not among the sources.  The
    map answers [query(point)]; the answer 0 means that the point is free. *)
Record VoxelMap := mkVoxelMap { query : Vector3d -> nat }.

(** The fields of [Config] that the goal callback reads. *)
Record Config := mkConfig {
  dilateRadius : R;
  mapBound : list R
}.

(** [geometry_msgs::PoseStamped], reduced to the fields that are read. *)
Record PoseStamped := mkPoseStamped {
  pose_position_x : R;
  pose_position_y : R;
  pose_orientation_z : R
}.

(** The value of [gcopter.optimize]: a finite cost, or [INFINITY]. *)
Inductive Cost :=
| Finite (c : R)
| Infinite.

Definition isinf (c : Cost) : bool :=
  match c with Infinite => true | Finite _ => false end.

Definition MatrixX4d := list (R * R * R * R).

(** Modelled from the spec: the planner pipeline ([sfc_gen.hpp],
    [gcopter.hpp]) and the clock are external collaborators, not among the
    sources; they are taken as functions.  [optimize] receives the
    trajectory object by reference and returns what it leaves in it. *)
Record Planner := mkPlanner {
  planPath : Vector3d -> Vector3d -> VoxelMap -> list Vector3d;
  convexCover : list Vector3d -> VoxelMap -> list MatrixX4d;
  shortCut : list MatrixX4d -> list MatrixX4d;
  setup : Vector3d -> Vector3d -> list MatrixX4d -> bool;
  optimize : Vector3d -> Vector3d -> list MatrixX4d -> Trajectory -> Cost * Trajectory;
  now : R
}.

(** What a callback does to the outside, in order. *)
Inductive Call :=
| CallPlanPath
| CallConvexCover
| CallVisualizePolytope
| CallSetup
| CallOptimize
| CallVisualizeTraj
| CallVisualizeStartGoal
| CallWarnInfeasible.

Definition is_planner_call (e : Call) : bool :=
  match e with
  | CallPlanPath | CallConvexCover | CallSetup | CallOptimize => true
  | _ => false
  end.

Definition Call_eq_dec (a b : Call) : {a = b} + {a <> b}.
Proof. decide equality. Defined.

(** A [float] of a point cloud: not a number, an infinity, or a finite
    value. *)
Inductive Float32 :=
| FNaN
| FInf (negative : bool)
| FFinite (x : R).

Definition isnan_f (f : Float32) : bool :=
  match f with FNaN => true | _ => false end.

Definition isinf_f (f : Float32) : bool :=
  match f with FInf _ => true | _ => false end.

(** The conversion of a [float] to [double]; only finite values reach it. *)
Definition to_double (f : Float32) : R :=
  match f with FFinite x => x | _ => 0 end.

(** [sensor_msgs::PointCloud2], reduced to what is read: the size of [data]
    in bytes, [point_step], and [data] seen as an array of [float]. *)
Record PointCloud2 := mkPointCloud2 {
  data_size : nat;
  point_step : nat;
  fdata : nat -> Float32
}.

(** Modelled from the spec: the operations of [voxel_map.hpp] that the map
    callback uses are not among the sources; they are taken as functions. *)
Record MapOps := mkMapOps {
  setOccupied : VoxelMap -> Vector3d -> VoxelMap;
  dilate : VoxelMap -> Z -> VoxelMap;
  getScale : VoxelMap -> R
}.

(** [std::ceil], as an integer. *)
Definition ceil (x : R) : Z := (- Int_part (- x))%Z.

(** Modelled from the spec: what [process] takes from outside, none of it
    among the sources; the clock, the derivatives of the trajectory
    ([trajectory.hpp]), [std::atan2] and [flatmap.forward]
    ([flatness.hpp]), which returns thrust, attitude quaternion and body
    rate. *)
Record Flight := mkFlight {
  clock : R;
  getVel : Trajectory -> R -> Vector3d;
  getAcc : Trajectory -> R -> Vector3d;
  getJer : Trajectory -> R -> Vector3d;
  atan2 : R -> R -> R;
  forward : Vector3d -> Vector3d -> Vector3d -> R -> R -> R * Vector4d * Vector3d
}.

(** What one run of [process] publishes. *)
Record Telemetry := mkTelemetry {
  pub_speed : R;
  pub_thr : R;
  pub_tilt : R;
  pub_bdr : R;
  pub_pitch : R;
  pub_roll : R;
  vis_progress : R;
  vis_delta : R;
  vis_safe : bool
}.

Module GlobalPlanner.

Import pa_checker.

Record GlobalPlanner := mkGlobalPlanner {
  config : Config;
  mapInitialized : bool;
  voxelMap : VoxelMap;
  startGoal : list Vector3d;
  traj : Trajectory;
  paChecker : Pa_checker;
  trajStamp : R
}.

Definition set_startGoal (g : GlobalPlanner) (sg : list Vector3d) : GlobalPlanner :=
  mkGlobalPlanner (config g) (mapInitialized g) (voxelMap g) sg
                  (traj g) (paChecker g) (trajStamp g).

Definition set_traj (g : GlobalPlanner) (tr : Trajectory) : GlobalPlanner :=
  mkGlobalPlanner (config g) (mapInitialized g) (voxelMap g) (startGoal g)
                  tr (paChecker g) (trajStamp g).

Definition set_paChecker (g : GlobalPlanner) (c : Pa_checker) : GlobalPlanner :=
  mkGlobalPlanner (config g) (mapInitialized g) (voxelMap g) (startGoal g)
                  (traj g) c (trajStamp g).

Definition set_trajStamp (g : GlobalPlanner) (s : R) : GlobalPlanner :=
  mkGlobalPlanner (config g) (mapInitialized g) (voxelMap g) (startGoal g)
                  (traj g) (paChecker g) s.

(** The constructor: no map yet, no goal, an empty trajectory and the
    checker [paChecker(0.0, 40.0, 4.0, 4.0, false)].  [trajStamp] is not
    initialised by the constructor; [stamp0] stands for what it holds. *)
Definition make (conf : Config) (map0 : VoxelMap) (stamp0 : R) : GlobalPlanner :=
  mkGlobalPlanner conf false map0 [] [] (pa_checker.make 0 40 4 4 false) stamp0.

(** The route and the corridor that [plan] computes from the goal buffer. *)
Definition route_of (env : Planner) (g : GlobalPlanner) : list Vector3d :=
  planPath env (nth 0 (startGoal g) Zero) (nth 1 (startGoal g) Zero) (voxelMap g).

Definition hPolys_of (env : Planner) (g : GlobalPlanner) : list MatrixX4d :=
  shortCut env (convexCover env (route_of env g) (voxelMap g)).

Definition plan (env : Planner) (g : GlobalPlanner) : GlobalPlanner * list Call :=
  if Nat.eqb (length (startGoal g)) 2 then
    let route := route_of env g in
    let hPolys := hPolys_of env g in
    let log := [CallPlanPath; CallConvexCover] in
    if Nat.ltb 1 (length route) then
      let log := log ++ [CallVisualizePolytope] in
      let iniPos := hd Zero route in
      let finPos := last route Zero in
      let g := set_traj g (Traj.clear (traj g)) in
      let g := set_paChecker g (pa_checker.clear (paChecker g)) in
      if negb (setup env iniPos finPos hPolys) then (g, log ++ [CallSetup])
      else
        let log := log ++ [CallSetup; CallOptimize] in
        let (cost, traj') := optimize env iniPos finPos hPolys (traj g) in
        let g := set_traj g traj' in
        if isinf cost then (g, log)
        else if Nat.ltb 0 (Traj.getPieceNum (traj g))
             then (set_trajStamp g (now env), log ++ [CallVisualizeTraj])
             else (g, log)
    else (g, log)
  else (g, []).

(** [setup] refuses the problem that [plan] hands to it. *)
Definition setup_fails (env : Planner) (g : GlobalPlanner) : Prop :=
  setup env (hd Zero (route_of env g)) (last (route_of env g) Zero) (hPolys_of env g) = false.

(** [setup] accepts and [optimize] returns an infinite cost. *)
Definition optimize_fails (env : Planner) (g : GlobalPlanner) : Prop :=
  setup env (hd Zero (route_of env g)) (last (route_of env g) Zero) (hPolys_of env g) = true /\
  isinf (fst (optimize env (hd Zero (route_of env g)) (last (route_of env g) Zero)
                       (hPolys_of env g) [])) = true.

(** Two goal points are buffered, a route is found, and then the pipeline
    fails. *)
Definition pipeline_fails (env : Planner) (g : GlobalPlanner) : Prop :=
  length (startGoal g) = 2%nat /\
  (1 < length (route_of env g))%nat /\
  (setup_fails env g \/ optimize_fails env g).

(** The goal point of a request: [zGoal] is read off the orientation field.
    The arithmetic is exact here; [Double.zGoal] is the same expression with
    the machine operations. *)
Definition goal_of (conf : Config) (msg : PoseStamped) : Vector3d :=
  let mb := mapBound conf in
  mkV3 (pose_position_x msg) (pose_position_y msg)
       (nth 4 mb 0 + dilateRadius conf +
        Rabs (pose_orientation_z msg) *
          (nth 5 mb 0 - nth 4 mb 0 - 2 * dilateRadius conf)).

Definition targetCallBack (env : Planner) (g : GlobalPlanner) (msg : PoseStamped)
  : GlobalPlanner * list Call :=
  if mapInitialized g then
    let g := if Nat.leb 2 (length (startGoal g)) then set_startGoal g [] else g in
    let goal := goal_of (config g) msg in
    let (g, log) :=
      if Nat.eqb (query (voxelMap g) goal) 0
      then (set_startGoal g (startGoal g ++ [goal]), [CallVisualizeStartGoal])
      else (g, [CallWarnInfeasible]) in
    let (g, log') := plan env g in
    (g, log ++ log')
  else (g, []).

Definition set_voxelMap (g : GlobalPlanner) (m : VoxelMap) : GlobalPlanner :=
  mkGlobalPlanner (config g) (mapInitialized g) m (startGoal g)
                  (traj g) (paChecker g) (trajStamp g).

Definition set_mapInitialized (g : GlobalPlanner) (b : bool) : GlobalPlanner :=
  mkGlobalPlanner (config g) b (voxelMap g) (startGoal g)
                  (traj g) (paChecker g) (trajStamp g).

(** The goal buffer that [targetCallBack] hands to [plan]. *)
Definition buffered (g : GlobalPlanner) (msg : PoseStamped) : list Vector3d :=
  (if Nat.leb 2 (length (startGoal g)) then [] else startGoal g) ++
  (if Nat.eqb (query (voxelMap g) (goal_of (config g) msg)) 0
   then [goal_of (config g) msg] else []).

(** The body of the loop of [mapCallBack] (lines 133 to 143) for the point
    number [i]. *)
Definition ingest_point (ops : MapOps) (msg : PointCloud2) (m : VoxelMap) (i : nat)
  : VoxelMap :=
  let cur := (point_step msg / 4 * i)%nat in
  if isnan_f (fdata msg (cur + 0)) || isinf_f (fdata msg (cur + 0)) ||
     isnan_f (fdata msg (cur + 1)) || isinf_f (fdata msg (cur + 1)) ||
     isnan_f (fdata msg (cur + 2)) || isinf_f (fdata msg (cur + 2))
  then m
  else setOccupied ops m (mkV3 (to_double (fdata msg (cur + 0)))
                               (to_double (fdata msg (cur + 1)))
                               (to_double (fdata msg (cur + 2)))).

(** [total] is an unsigned division; a [point_step] of zero, for which the
    C++ division is undefined, gives no point here. *)
Definition mapCallBack (ops : MapOps) (g : GlobalPlanner) (msg : PointCloud2)
  : GlobalPlanner :=
  if negb (mapInitialized g) then
    let total := (data_size msg / point_step msg)%nat in
    let m := fold_left (ingest_point ops msg) (seq 0 total) (voxelMap g) in
    let m := dilate ops m (ceil (dilateRadius (config g) / getScale ops m)) in
    set_mapInitialized (set_voxelMap g m) true
  else g.

(** [process]: the new state and what is published, if anything. *)
Definition process (fl : Flight) (g : GlobalPlanner) : GlobalPlanner * option Telemetry :=
  if Nat.ltb 0 (Traj.getPieceNum (traj g)) then
    let delta := clock fl - trajStamp g in
    if Rgtb delta 0 && Rltb delta (Traj.getTotalDuration (traj g)) then
      let vel := getVel fl (traj g) delta in
      let pos := Traj.getPos (traj g) delta in
      let Psi := atan2 fl (vy vel) (vx vel) in
      let '(thr, quat, omg) :=
        forward fl (getVel fl (traj g) delta) (getAcc fl (traj g) delta)
                (getJer fl (traj g) delta) Psi 0 in
      let speed := norm (getVel fl (traj g) delta) in
      let bodyratemag := norm omg in
      let tiltangle :=
        acos (1 - 2 * (q1 quat * q1 quat + q2 quat * q2 quat)) / PI * 180 in
      let pitchangle :=
        asin (2 * (q0 quat * q2 quat - q3 quat * q1 quat)) / PI * 180 in
      let rollangle :=
        atan2 fl (2 * (q0 quat * q1 quat + q2 quat * q3 quat))
                 (1 - 2 * (q1 quat * q1 quat + q2 quat * q2 quat)) / PI * 180 in
      let g := set_paChecker g (check (paChecker g) (traj g) quat pos speed delta) in
      (g, Some (mkTelemetry speed thr tiltangle bodyratemag pitchangle rollangle
                            (getProgress (paChecker g)) delta
                            (getSafeFlag (paChecker g))))
    else (g, None)
  else (g, None).

(** [main]: the loop calls [process] and lets [spinOnce] deliver the
    pending map and goal messages; one run of the node is a sequence of
    these three events, each with what the outside provides at that
    moment. *)
Inductive Event :=
| EvMap (ops : MapOps) (msg : PointCloud2)
| EvTarget (env : Planner) (msg : PoseStamped)
| EvProcess (fl : Flight).

Definition step (g : GlobalPlanner) (ev : Event) : GlobalPlanner :=
  match ev with
  | EvMap ops msg => mapCallBack ops g msg
  | EvTarget env msg => fst (targetCallBack env g msg)
  | EvProcess fl => fst (process fl g)
  end.

Definition run (g : GlobalPlanner) (evs : list Event) : GlobalPlanner :=
  fold_left step evs g.

(** The point number [i] of a cloud has three finite coordinates. *)
Definition point_is_finite (msg : PointCloud2) (i : nat) : bool :=
  let cur := (point_step msg / 4 * i)%nat in
  negb (isnan_f (fdata msg (cur + 0)) || isinf_f (fdata msg (cur + 0)) ||
        isnan_f (fdata msg (cur + 1)) || isinf_f (fdata msg (cur + 1)) ||
        isnan_f (fdata msg (cur + 2)) || isinf_f (fdata msg (cur + 2))).

Definition cloud_point (msg : PointCloud2) (i : nat) : Vector3d :=
  let cur := (point_step msg / 4 * i)%nat in
  mkV3 (to_double (fdata msg (cur + 0))) (to_double (fdata msg (cur + 1)))
       (to_double (fdata msg (cur + 2))).

(** The points of a cloud with three finite coordinates, in order. *)
Definition finite_points (msg : PointCloud2) : list Vector3d :=
  map (cloud_point msg)
      (filter (point_is_finite msg) (seq 0 (data_size msg / point_step msg))).

(** The marker of the monitor is inside the domain of the trajectory. *)
Definition marker_in_domain (g : GlobalPlanner) : Prop :=
  0 <= progress_t (paChecker g) <= Rmax 0 (Traj.getTotalDuration (traj g)).

Definition is_map_event (ev : Event) : bool :=
  match ev with EvMap _ _ => true | _ => false end.

End GlobalPlanner.

(** ** The properties in the words of the specification *)

Module Specification.

Import pa_checker GlobalPlanner.

(** The sample test with the configured angle read as the half-angle of
    the cone. *)
Definition in_view_half_angle (c : Pa_checker) (traj : Trajectory) (h pos : Vector3d)
           (t : R) : Prop :=
  let d := vsub (Traj.getPos traj t) pos in
  dot h (normalized d) > cos (angle c) /\ dot h d <= max_dist c.

(** The sample number [k] of a call, once reached, is accepted exactly
    when it passes that test. *)
Definition accepted_iff_half_angle (c : Pa_checker) (traj : Trajectory) (quat : Vector4d)
           (pos : Vector3d) (speed delta : R) (k : nat) : Prop :=
  let c1 := clamp c delta in
  let h := boresight quat in
  let t0 := progress_t c1 + 0.01 in
  let t := sample t0 k in
  (forall j, (j < k)%nat -> in_view c1 traj h pos (sample t0 j) = true) ->
  t <= Traj.getTotalDuration traj ->
  (t <= getProgress (check c traj quat pos speed delta) <->
   in_view_half_angle c traj h pos t).

(** The flag after a call is the result of the stopping-distance test of
    that call. *)
Definition safe_is_fresh (c : Pa_checker) (traj : Trajectory) (quat : Vector4d)
           (pos : Vector3d) (speed delta : R) : Prop :=
  let c' := check c traj quat pos speed delta in
  let s := norm (vsub (Traj.getPos traj (progress_t c')) pos) in
  safe c' = false <-> speed * speed - 2 * a_max c * s > 0.


(** A failed pipeline leaves trajectory, start time and monitor as they
    were. *)
Definition failure_keeps_state (env : Planner) (g : GlobalPlanner) : Prop :=
  pipeline_fails env g ->
  let g' := fst (plan env g) in
  traj g' = traj g /\ trajStamp g' = trajStamp g /\
  progress_t (paChecker g') = progress_t (paChecker g) /\
  safe (paChecker g') = safe (paChecker g).

(** A request for an occupied point leaves the goal buffer as it was and
    calls no planner. *)
Definition occupied_goal_is_ignored (env : Planner) (g : GlobalPlanner)
           (msg : PoseStamped) : Prop :=
  query (voxelMap g) (goal_of (config g) msg) <> 0%nat ->
  let r := targetCallBack env g msg in
  length (startGoal (fst r)) = length (startGoal g) /\
  existsb is_planner_call (snd r) = false.


End Specification.

(** ** Concrete flights and planner states *)

Module Scenario.

Import pa_checker GlobalPlanner.

(** Ten seconds straight along the x axis, and along the y axis, at 1 m/s. *)
Definition along_x : Trajectory := [mkPiece 10 (fun t => mkV3 t 0 0)].
Definition along_y : Trajectory := [mkPiece 10 (fun t => mkV3 0 t 0)].

(** The identity attitude: the boresight is the world x axis. *)
Definition level : Vector4d := mkV4 1 0 0 0.

Definition origin : Vector3d := mkV3 0 0 0.

(** The checker as [GlobalPlanner] constructs it. *)
Definition fresh : Pa_checker := pa_checker.make 0 40 4 4 false.

(** A checker late in the flight whose last decision was "unsafe". *)
Definition late : Pa_checker := mkPa_checker 9.9 4 4 false 40.

(** A checker in the middle of a flight whose last decision was "safe". *)
Definition midway : Pa_checker := mkPa_checker 2.5 4 4 true 40.

Definition conf : Config := mkConfig 0.5 [-25; 25; -25; 25; 0; 5].

Definition all_free : VoxelMap := mkVoxelMap (fun _ => 0%nat).
Definition all_occupied : VoxelMap := mkVoxelMap (fun _ => 1%nat).

Definition start_point : Vector3d := mkV3 0 0 1.
Definition goal_point : Vector3d := mkV3 10 0 1.

Definition request : PoseStamped := mkPoseStamped 3 4 0.

(** A planner that finds a route and whose [setup] refuses. *)
Definition refusing : Planner :=
  mkPlanner (fun a b _ => [a; b]) (fun _ _ => []) (fun p => p)
            (fun _ _ _ => false)
            (fun _ _ _ tr => (Infinite, tr))
            100.

(** A planner that finds a route and whose optimiser reports an infinite
    cost, leaving the trajectory empty. *)
Definition diverging : Planner :=
  mkPlanner (fun a b _ => [a; b]) (fun _ _ => []) (fun p => p)
            (fun _ _ _ => true)
            (fun _ _ _ tr => (Infinite, []))
            100.

(** A planner state in flight: two goals buffered, the flight along x
    installed at time 7, the monitor midway. *)
Definition flying (m : VoxelMap) : GlobalPlanner :=
  mkGlobalPlanner conf true m [start_point; goal_point] along_x midway 7.

(** The same with a single goal buffered. *)
Definition one_goal (m : VoxelMap) : GlobalPlanner :=
  mkGlobalPlanner conf true m [start_point] along_x midway 7.

(** A checker whose range is 3 cm. *)
Definition short_sighted : Pa_checker := mkPa_checker 0 4 0.03 false 40.

(** A planner that finds a route and returns the flight along x at a cost
    of 1, at time 8. *)
Definition succeeding : Planner :=
  mkPlanner (fun a b _ => [a; b]) (fun _ _ => []) (fun p => p)
            (fun _ _ _ => true)
            (fun _ _ _ _ => (Finite 1, along_x))
            8.

(** A planner that finds no route. *)
Definition lost : Planner :=
  mkPlanner (fun _ _ _ => []) (fun _ _ => []) (fun p => p)
            (fun _ _ _ => true)
            (fun _ _ _ _ => (Finite 1, along_x))
            100.

(** The node as constructed, before any message. *)
Definition booted : GlobalPlanner := GlobalPlanner.make conf all_free 0.

(** Map operations that leave the map as it is. *)
Definition inert : MapOps := mkMapOps (fun m _ => m) (fun m _ => m) (fun _ => 0.25).

(** A cloud of two points of 16 bytes each; the second has a NaN. *)
Definition cloud : PointCloud2 :=
  mkPointCloud2 32 16
    (fun i => match i with
              | 0%nat => FFinite 1 | 1%nat => FFinite 2 | 2%nat => FFinite 3
              | 4%nat => FFinite 1 | 5%nat => FNaN | 6%nat => FFinite 3
              | _ => FFinite 0
              end).

(** A map message and two goal requests. *)
Definition two_goals : list Event :=
  [EvMap inert cloud; EvTarget succeeding request; EvTarget succeeding request].

(** The outside at time 10 during the flight along x: velocity 1 m/s along
    x, level attitude. *)
Definition cruising : Flight :=
  mkFlight 10
           (fun _ _ => mkV3 1 0 0) (fun _ _ => mkV3 0 0 0) (fun _ _ => mkV3 0 0 0)
           (fun _ _ => 0)
           (fun _ _ _ _ _ => (9.81, level, mkV3 0 0 0)).


End Scenario.

(** * Properties *)

Import pa_checker.

(** ** Comparisons *)

Lemma Rleb_true (a b : R) : a <= b -> Rleb a b = true.
Proof. intros H. unfold Rleb. destruct (Rle_dec a b); [reflexivity | contradiction]. Qed.

Lemma Rleb_false (a b : R) : b < a -> Rleb a b = false.
Proof. intros H. unfold Rleb. destruct (Rle_dec a b); [lra | reflexivity]. Qed.

Lemma Rgtb_true (a b : R) : b < a -> Rgtb a b = true.
Proof. intros H. unfold Rgtb. destruct (Rgt_dec a b); [reflexivity | lra]. Qed.

Lemma Rgtb_false (a b : R) : a <= b -> Rgtb a b = false.
Proof. intros H. unfold Rgtb. destruct (Rgt_dec a b); [lra | reflexivity]. Qed.

Lemma Rleb_iff (a b : R) : Rleb a b = true <-> a <= b.
Proof.
  unfold Rleb. destruct (Rle_dec a b); split; intros; try reflexivity;
    try assumption; try discriminate; contradiction.
Qed.

Lemma Rgtb_iff (a b : R) : Rgtb a b = true <-> b < a.
Proof.
  unfold Rgtb. destruct (Rgt_dec a b) as [Hgt | Hn]; split; intros H;
    try reflexivity; try discriminate.
  - exact Hgt.
  - exfalso. apply Hn. exact H.
Qed.

(** ** The scan loop *)

Lemma scan_measure_decr (traj : Trajectory) (t : R) :
  t <= Traj.getTotalDuration traj ->
  (scan_measure traj (t + 0.05) < scan_measure traj t)%nat.
Proof. intros Hle. scan_measure_decreases. Qed.

Section Scan.

Variable traj : Trajectory.
Variables h pos : Vector3d.
Variable speed : R.

Let T := Traj.getTotalDuration traj.

Lemma scan_unfold (c : Pa_checker) (t : R) :
  scan traj h pos speed c t =
    if Rleb t (Traj.getTotalDuration traj) then
      if in_view c traj h pos t
      then scan traj h pos speed (set_progress_t c t) (t + 0.05)
      else decide_safe c traj pos speed
    else c.
Proof.
  rewrite scan_equation_1. unfold Rleb.
  destruct (Rle_dec t (Traj.getTotalDuration traj)); reflexivity.
Qed.

(** The test of a sample does not read the marker. *)
Lemma in_view_set_progress_t (c : Pa_checker) (u t : R) :
  in_view (set_progress_t c u) traj h pos t = in_view c traj h pos t.
Proof. reflexivity. Qed.

(** Induction along the iterations of the loop. *)
Lemma scan_loop_ind (P : Pa_checker -> R -> Pa_checker -> Prop) :
  (forall c t, T < t -> P c t c) ->
  (forall c t, t <= T -> in_view c traj h pos t = false ->
               P c t (decide_safe c traj pos speed)) ->
  (forall c t, t <= T -> in_view c traj h pos t = true ->
               P (set_progress_t c t) (t + 0.05)
                 (scan traj h pos speed (set_progress_t c t) (t + 0.05)) ->
               P c t (scan traj h pos speed (set_progress_t c t) (t + 0.05))) ->
  forall c t, P c t (scan traj h pos speed c t).
Proof.
  intros Hexit Hfail Hstep c t.
  remember (scan_measure traj t) as n eqn:Hn.
  revert c t Hn.
  induction n as [n IH] using lt_wf_ind.
  intros c t Hn. rewrite scan_unfold. unfold Rleb.
  destruct (Rle_dec t (Traj.getTotalDuration traj)) as [Hle | Hgt].
  - destruct (in_view c traj h pos t) eqn:Hv.
    + apply Hstep; [exact Hle | exact Hv |].
      apply (IH (scan_measure traj (t + 0.05))); [| reflexivity].
      subst n. apply scan_measure_decr. exact Hle.
    + apply Hfail; assumption.
  - apply Hexit. unfold T. lra.
Qed.

Lemma scan_config (c : Pa_checker) (t : R) :
  let c' := scan traj h pos speed c t in
  a_max c' = a_max c /\ max_dist c' = max_dist c /\ angle c' = angle c.
Proof.
  apply (scan_loop_ind (fun c t c' =>
    a_max c' = a_max c /\ max_dist c' = max_dist c /\ angle c' = angle c)).
  - intros; repeat split.
  - intros; repeat split.
  - intros c0 t0 _ _ IH. exact IH.
Qed.

(** The loop only moves the marker forward. *)
Lemma scan_progress_ge (c : Pa_checker) (t : R) :
  progress_t c <= t -> progress_t c <= progress_t (scan traj h pos speed c t).
Proof.
  apply (scan_loop_ind (fun c t c' => progress_t c <= t -> progress_t c <= progress_t c')).
  - intros; lra.
  - intros; simpl; lra.
  - intros c0 t0 _ _ IH Hle. simpl in IH. lra.
Qed.

(** The loop never moves the marker past the end of the trajectory. *)
Lemma scan_progress_le (c : Pa_checker) (t : R) :
  progress_t c <= T -> progress_t (scan traj h pos speed c t) <= T.
Proof.
  apply (scan_loop_ind (fun c t c' => progress_t c <= T -> progress_t c' <= T)).
  - intros; assumption.
  - intros; simpl; assumption.
  - intros c0 t0 Hle _ IH _. apply IH. simpl. exact Hle.
Qed.

End Scan.

(** ** The samples of one scan *)

Lemma sample_shift (t0 : R) (k : nat) : sample (t0 + 0.05) k = sample t0 (S k).
Proof.
  induction k as [| k IH]; simpl.
  - reflexivity.
  - rewrite IH. reflexivity.
Qed.

Lemma sample_closed_form (t0 : R) (k : nat) : sample t0 k = t0 + 0.05 * INR k.
Proof.
  induction k as [| k IH].
  - simpl. lra.
  - rewrite S_INR. simpl. rewrite IH. lra.
Qed.

Lemma sample_lt (t0 : R) (j k : nat) : (j < k)%nat -> sample t0 j < sample t0 k.
Proof.
  intros Hjk. rewrite !sample_closed_form.
  apply lt_INR in Hjk. lra.
Qed.

Lemma marker_at_shift (c : Pa_checker) (t0 : R) (k : nat) :
  marker_at (set_progress_t c t0) (t0 + 0.05) k = marker_at c t0 (S k).
Proof.
  destruct k as [| k]; simpl.
  - reflexivity.
  - rewrite sample_shift. reflexivity.
Qed.

Section ScanSamples.

Variable traj : Trajectory.
Variables h pos : Vector3d.
Variable speed : R.

Lemma scan_first_failure (k : nat) : forall (c : Pa_checker) (t0 : R),
  first_failure traj h pos c t0 k ->
  scan traj h pos speed c t0 = decide_safe (marker_at c t0 k) traj pos speed.
Proof.
  induction k as [| k IH]; intros c t0 (Hbefore & Hin & Hfail).
  - simpl in *. rewrite scan_unfold, (Rleb_true _ _ Hin), Hfail. reflexivity.
  - assert (H0 : in_view c traj h pos t0 = true) by (apply (Hbefore 0%nat); lia).
    assert (Ht0 : t0 <= Traj.getTotalDuration traj).
    { pose proof (sample_lt t0 0 (S k) ltac:(lia)) as Hlt. simpl in Hlt. simpl in Hin. lra. }
    rewrite scan_unfold, (Rleb_true _ _ Ht0), H0.
    rewrite <- marker_at_shift. apply IH. repeat split.
    + intros j Hj. rewrite sample_shift, in_view_set_progress_t.
      apply Hbefore. lia.
    + rewrite sample_shift. exact Hin.
    + rewrite sample_shift, in_view_set_progress_t. exact Hfail.
Qed.

Lemma scan_no_failure (c : Pa_checker) (t0 : R) :
  no_failure traj h pos c t0 ->
  (Traj.getTotalDuration traj < t0 /\ scan traj h pos speed c t0 = c) \/
  (exists k, sample t0 k <= Traj.getTotalDuration traj < sample t0 (S k) /\
             scan traj h pos speed c t0 = set_progress_t c (sample t0 k)).
Proof.
  apply (scan_loop_ind traj h pos speed (fun c t0 c' =>
    no_failure traj h pos c t0 ->
    (Traj.getTotalDuration traj < t0 /\ c' = c) \/
    (exists k, sample t0 k <= Traj.getTotalDuration traj < sample t0 (S k) /\
               c' = set_progress_t c (sample t0 k)))).
  - intros c0 t Hgt _. left. split; [exact Hgt | reflexivity].
  - intros c0 t Hle Hfail Hall. exfalso.
    specialize (Hall 0%nat Hle). simpl in Hall. congruence.
  - intros c0 t Hle Hv IH Hall. right.
    destruct IH as [[Hgt Heq] | (k & Hk & Heq)].
    + intros k Hk. rewrite sample_shift, in_view_set_progress_t.
      apply Hall. rewrite <- sample_shift. exact Hk.
    + exists 0%nat. simpl. split; [lra | exact Heq].
    + exists (S k). rewrite <- (sample_shift t k), <- (sample_shift t (S k)).
      split; [exact Hk |].
      rewrite Heq. reflexivity.
Qed.

(** A failing sample within the duration gives a first one. *)
Lemma first_failure_exists (c : Pa_checker) (t0 : R) (k : nat) :
  sample t0 k <= Traj.getTotalDuration traj ->
  in_view c traj h pos (sample t0 k) = false ->
  exists k0, (k0 <= k)%nat /\ first_failure traj h pos c t0 k0.
Proof.
  induction k as [k IH] using lt_wf_ind. intros Hin Hfail.
  destruct (forallb (fun j => in_view c traj h pos (sample t0 j)) (seq 0 k)) eqn:Hall.
  - exists k. split; [lia |]. repeat split; try assumption.
    intros j Hj. rewrite forallb_forall in Hall. apply Hall.
    apply in_seq. lia.
  - assert (Hex : exists j, (j < k)%nat /\ in_view c traj h pos (sample t0 j) = false).
    { clear - Hall. induction k as [| k IHk].
      - discriminate.
      - rewrite seq_S, forallb_app in Hall. simpl in Hall.
        destruct (forallb (fun j => in_view c traj h pos (sample t0 j)) (seq 0 k)) eqn:Hk.
        + exists k. split; [lia |]. simpl in Hall.
          destruct (in_view c traj h pos (sample t0 k)); [discriminate | reflexivity].
        + destruct (IHk eq_refl) as (j & Hj & Hf). exists j. split; [lia | exact Hf]. }
    destruct Hex as (j & Hj & Hf).
    destruct (IH j Hj) as (k0 & Hk0 & Hff).
    + pose proof (sample_lt t0 j k Hj). lra.
    + exact Hf.
    + exists k0. split; [lia | exact Hff].
Qed.

End ScanSamples.

(** ** One call of [check]: the marker *)

Lemma clamp_ge_old (c : Pa_checker) (delta : R) : progress_t c <= progress_t (clamp c delta).
Proof.
  unfold clamp, Rleb. destruct (Rle_dec (progress_t c) delta); simpl; lra.
Qed.

Lemma clamp_ge_delta (c : Pa_checker) (delta : R) : delta <= progress_t (clamp c delta).
Proof.
  unfold clamp, Rleb. destruct (Rle_dec (progress_t c) delta); simpl; lra.
Qed.

Lemma clamp_le (c : Pa_checker) (delta bound : R) :
  delta <= bound -> progress_t c <= bound -> progress_t (clamp c delta) <= bound.
Proof.
  intros Hd Hp. unfold clamp, Rleb.
  destruct (Rle_dec (progress_t c) delta); simpl; lra.
Qed.

Lemma clamp_config (c : Pa_checker) (delta : R) :
  a_max (clamp c delta) = a_max c /\ max_dist (clamp c delta) = max_dist c /\
  angle (clamp c delta) = angle c /\ safe (clamp c delta) = safe c.
Proof.
  unfold clamp. destruct (Rleb (progress_t c) delta); repeat split.
Qed.

Lemma check_progress_ge_clamp (c : Pa_checker) (traj : Trajectory) (quat : Vector4d)
      (pos : Vector3d) (speed delta : R) :
  progress_t (clamp c delta) <= progress_t (check c traj quat pos speed delta).
Proof.
  unfold check. apply scan_progress_ge. lra.
Qed.

Lemma check_progress_ge_old (c : Pa_checker) (traj : Trajectory) (quat : Vector4d)
      (pos : Vector3d) (speed delta : R) :
  progress_t c <= progress_t (check c traj quat pos speed delta).
Proof.
  pose proof (clamp_ge_old c delta).
  pose proof (check_progress_ge_clamp c traj quat pos speed delta).
  lra.
Qed.

(** C9. After [clear()], whatever the state was, the marker is 0 and the flag
    is false, and the cone angle, the maximum range and the maximum
    deceleration are the ones the checker had. *)
Theorem clear_resets_progress_only (c : Pa_checker) :
  getProgress (clear c) = 0 /\ getSafeFlag (clear c) = false /\
  angle (clear c) = angle c /\ max_dist (clear c) = max_dist c /\
  a_max (clear c) = a_max c.
Proof. repeat split. Qed.

(** C8. If the elapsed time is beyond the marker before a call of [check],
    the marker is at least the elapsed time after the call. *)
Theorem check_clamps_to_elapsed (c : Pa_checker) (traj : Trajectory) (quat : Vector4d)
        (pos : Vector3d) (speed delta : R) :
  delta > progress_t c ->
  getProgress (check c traj quat pos speed delta) >= delta.
Proof.
  intros _. unfold getProgress.
  pose proof (clamp_ge_delta c delta).
  pose proof (check_progress_ge_clamp c traj quat pos speed delta).
  lra.
Qed.

Lemma check_clamps_to_elapsed_witness :
  3 > progress_t Scenario.midway /\
  getProgress (check Scenario.midway Scenario.along_x Scenario.level
                     (mkV3 3 0 0) 1 3) >= 3.
Proof.
  split.
  - simpl. lra.
  - apply check_clamps_to_elapsed. simpl. lra.
Defined.

(** C10. With the elapsed time inside the duration and the marker not past
    the end before a call of [check], the marker lies between the elapsed
    time and the total duration after the call, so a position query at the
    marker is inside the domain of the trajectory; and no call, whatever its
    elapsed time, lowers the marker. *)
Theorem check_marker_within_duration (c : Pa_checker) (traj : Trajectory) (quat : Vector4d)
        (pos : Vector3d) (speed delta : R) :
  (0 <= delta <= Traj.getTotalDuration traj ->
   progress_t c <= Traj.getTotalDuration traj ->
   delta <= getProgress (check c traj quat pos speed delta) <= Traj.getTotalDuration traj /\
   0 <= getProgress (check c traj quat pos speed delta)) /\
  getProgress c <= getProgress (check c traj quat pos speed delta).
Proof.
  unfold getProgress.
  pose proof (clamp_ge_delta c delta) as Hd.
  pose proof (check_progress_ge_clamp c traj quat pos speed delta) as Hc.
  split; [| apply check_progress_ge_old].
  intros [H0 HT] Hp.
  assert (Hle : progress_t (check c traj quat pos speed delta) <= Traj.getTotalDuration traj).
  { unfold check. apply scan_progress_le. apply clamp_le; assumption. }
  lra.
Qed.

Lemma check_marker_within_duration_witness :
  (0 <= 3 <= Traj.getTotalDuration Scenario.along_x /\
   progress_t Scenario.midway <= Traj.getTotalDuration Scenario.along_x) /\
  3 <= getProgress (check Scenario.midway Scenario.along_x Scenario.level
                          (mkV3 3 0 0) 1 3) <= Traj.getTotalDuration Scenario.along_x.
Proof.
  assert (H : 0 <= 3 <= Traj.getTotalDuration Scenario.along_x /\
              progress_t Scenario.midway <= Traj.getTotalDuration Scenario.along_x).
  { simpl. lra. }
  split; [exact H |].
  destruct H as [H1 H2].
  exact (proj1 (proj1 (check_marker_within_duration Scenario.midway Scenario.along_x
                         Scenario.level (mkV3 3 0 0) 1 3) H1 H2)).
Defined.

(** C7. For one trajectory and any sequence of calls of [check] (with
    non-decreasing elapsed times or not), the marker read after each call
    is at least the marker read after the call before; the marker the
    sequence starts from opens the list. *)
Theorem progress_never_decreases (traj : Trajectory) (ticks : list Tick) :
  forall c : Pa_checker,
    Sorted Rle (getProgress c :: progress_trace traj c ticks).
Proof.
  induction ticks as [| k rest IH]; intros c.
  - simpl. constructor; constructor.
  - simpl. constructor.
    + apply IH.
    + constructor. unfold check_tick, getProgress.
      apply check_progress_ge_old.
Qed.

(** ** Values used at concrete inputs *)

Lemma PI_between : 3.14 < PI < 3.15.
Proof.
  pose proof (PI_2_3_7_ineq 1) as [Hlo Hhi].
  unfold PI_2_3_7_tg, tg_alt, Ratan_seq in Hlo, Hhi.
  simpl in Hlo, Hhi.
  split; lra.
Qed.

(** The threshold of the configured checker: [cos (40.0 / 2)]. *)
Lemma cos_20_between : 0 < cos (40 / 2) < 1.
Proof.
  pose proof PI_between as [H1 H2].
  replace (40 / 2) with ((20 - 6 * PI) + 2 * INR 3 * PI) by (simpl; lra).
  rewrite cos_period.
  split.
  - apply cos_gt_0; lra.
  - rewrite <- cos_0. apply cos_decreasing_1; lra.
Qed.

Lemma cos_40_negative : cos 40 < 0.
Proof.
  pose proof PI_between as [H1 H2].
  replace 40 with ((40 - 12 * PI) + 2 * INR 6 * PI) by (simpl; lra).
  rewrite cos_period.
  apply cos_lt_0; lra.
Qed.

Lemma rotate_UnitX (q : Quaterniond) :
  rotate q UnitX =
    mkV3 (1 - 2 * (qy q * qy q + qz q * qz q))
         (2 * (qx q * qy q + qw q * qz q))
         (2 * (qx q * qz q - qw q * qy q)).
Proof.
  unfold rotate, cross, vadd, vscale, qvec, UnitX. cbn. f_equal; ring.
Qed.

Lemma normalized_unit (v : Vector3d) : squaredNorm v = 1 -> normalized v = v.
Proof.
  intros Hv. unfold normalized. rewrite Hv, Rgtb_true by lra.
  rewrite sqrt_1. destruct v as [x y z]. unfold vdiv. cbn. f_equal; lra.
Qed.

Lemma normalized_along_x (d : R) : 0 < d -> normalized (mkV3 d 0 0) = mkV3 1 0 0.
Proof.
  intros Hd. unfold normalized, squaredNorm, dot. cbn.
  replace (d * d + 0 * 0 + 0 * 0) with (d * d) by ring.
  rewrite Rgtb_true by nra.
  rewrite sqrt_square by lra.
  unfold vdiv. cbn. f_equal; field; lra.
Qed.

Lemma norm_along_x (d : R) : 0 <= d -> norm (mkV3 d 0 0) = d.
Proof.
  intros Hd. unfold norm, squaredNorm, dot. cbn.
  replace (d * d + 0 * 0 + 0 * 0) with (d * d) by ring.
  apply sqrt_square. exact Hd.
Qed.

(** A direction along the y axis is at a right angle to the x axis. *)
Lemma dot_x_normalized_along_y (y : R) : dot (mkV3 1 0 0) (normalized (mkV3 0 y 0)) = 0.
Proof.
  unfold normalized. destruct (Rgtb (squaredNorm (mkV3 0 y 0)) 0);
    unfold vdiv, dot; cbn; unfold Rdiv; ring.
Qed.

Lemma boresight_level : boresight Scenario.level = mkV3 1 0 0.
Proof.
  unfold boresight. rewrite rotate_UnitX. cbn.
  replace (mkV3 (1 - 2 * (0 * 0 + 0 * 0)) (2 * (0 * 0 + 1 * 0)) (2 * (0 * 0 - 1 * 0)))
    with (mkV3 1 0 0) by (f_equal; lra).
  apply normalized_unit. unfold squaredNorm, dot. cbn. lra.
Qed.

(** ** One call of [check]: the decision *)

Lemma clamp_progress (c : Pa_checker) (delta : R) :
  progress_t (clamp c delta) = Rmax (progress_t c) delta.
Proof.
  unfold clamp, Rleb, Rmax. destruct (Rle_dec (progress_t c) delta); reflexivity.
Qed.

Lemma marker_at_before_sample (c : Pa_checker) (k : nat) :
  progress_t (marker_at c (progress_t c + 0.01) k) < sample (progress_t c + 0.01) k.
Proof.
  destruct k as [| j]; simpl; lra.
Qed.

Lemma decide_safe_flag (c : Pa_checker) (traj : Trajectory) (pos : Vector3d) (speed : R) :
  safe (decide_safe c traj pos speed) = false <->
  speed * speed - 2 * a_max c * norm (vsub (Traj.getPos traj (progress_t c)) pos) > 0.
Proof.
  unfold decide_safe. simpl. unfold Rgtb.
  destruct (Rgt_dec (speed * speed -
                     2 * a_max c * norm (vsub (Traj.getPos traj (progress_t c)) pos)) 0);
    split; intros H; try reflexivity; try assumption; try discriminate; contradiction.
Qed.

Lemma norm_nonneg (v : Vector3d) : 0 <= norm v.
Proof. unfold norm. apply sqrt_pos. Qed.

Lemma norm_vsub_self (p : Vector3d) : norm (vsub p p) = 0.
Proof.
  unfold norm, squaredNorm, dot, vsub. cbn.
  replace ((vx p - vx p) * (vx p - vx p) + (vy p - vy p) * (vy p - vy p) +
           (vz p - vz p) * (vz p - vz p)) with 0 by ring.
  apply sqrt_0.
Qed.

Lemma in_view_iff (c : Pa_checker) (traj : Trajectory) (h pos : Vector3d) (t : R) :
  in_view c traj h pos t = true <->
  dot h (normalized (vsub (Traj.getPos traj t) pos)) > cos (angle c / 2) /\
  dot h (vsub (Traj.getPos traj t) pos) <= max_dist c.
Proof.
  unfold in_view. cbv zeta. rewrite andb_true_iff, Rgtb_iff, Rleb_iff. tauto.
Qed.

Section CheckCall.

Variable c : Pa_checker.
Variable traj : Trajectory.
Variable quat : Vector4d.
Variable pos : Vector3d.
Variables speed delta : R.

Let c1 := clamp c delta.
Let h := boresight quat.
Let t0 := progress_t c1 + 0.01.
Let c' := check c traj quat pos speed delta.

Lemma check_first_failure (k : nat) :
  first_failure traj h pos c1 t0 k ->
  c' = decide_safe (marker_at c1 t0 k) traj pos speed.
Proof.
  intros Hff. unfold c', check. apply scan_first_failure. exact Hff.
Qed.

(** When a scanned sample fails, the flag is the stopping-distance test
    taken at the marker that the call leaves. *)
Lemma check_decision :
  (exists k, sample t0 k <= Traj.getTotalDuration traj /\
             in_view c1 traj h pos (sample t0 k) = false) ->
  (safe c' = false <->
   speed * speed - 2 * a_max c * norm (vsub (Traj.getPos traj (progress_t c')) pos) > 0).
Proof.
  intros (k & Hin & Hfail).
  destruct (first_failure_exists traj h pos c1 t0 k Hin Hfail) as (k0 & _ & Hff).
  rewrite (check_first_failure k0 Hff).
  rewrite decide_safe_flag.
  assert (Ha : a_max (marker_at c1 t0 k0) = a_max c).
  { destruct k0; simpl; apply (clamp_config c delta). }
  rewrite Ha. simpl. tauto.
Qed.

(** When no scanned sample fails, the flag is not written. *)
Lemma check_no_failure :
  no_failure traj h pos c1 t0 ->
  safe c' = safe c /\
  (t0 <= Traj.getTotalDuration traj ->
   Traj.getTotalDuration traj - 0.05 < progress_t c' <= Traj.getTotalDuration traj).
Proof.
  intros Hall.
  assert (Hs : safe c1 = safe c) by apply (clamp_config c delta).
  destruct (scan_no_failure traj h pos speed c1 t0 Hall) as [[Hgt Heq] | (k & Hk & Heq)];
    unfold c', check; fold c1; fold h; fold t0; rewrite Heq.
  - split; [exact Hs | intros; lra].
  - split; [exact Hs |]. intros _. simpl. simpl in Hk. lra.
Qed.

End CheckCall.

(** ** Calls at concrete inputs *)

Lemma clamp_fresh : clamp Scenario.fresh 0 = Scenario.fresh.
Proof. unfold clamp. cbn. rewrite Rleb_true by lra. reflexivity. Qed.

Lemma getTotalDuration_along_x : Traj.getTotalDuration Scenario.along_x = 10.
Proof. simpl. lra. Qed.

Lemma getTotalDuration_along_y : Traj.getTotalDuration Scenario.along_y = 10.
Proof. simpl. lra. Qed.

(** On the flight along x, seen from the point of the flight at time [x]
    with the boresight along x, the sample [d] seconds ahead is in view as
    long as it is within range. *)
Lemma in_view_ahead (c : Pa_checker) (x d : R) :
  0 < d -> d <= max_dist c -> cos (angle c / 2) < 1 ->
  in_view c Scenario.along_x (mkV3 1 0 0) (mkV3 x 0 0) (x + d) = true.
Proof.
  intros Hd Hr Hc. unfold in_view. cbn [Traj.getPos Scenario.along_x piecePos].
  replace (vsub (mkV3 (x + d) 0 0) (mkV3 x 0 0)) with (mkV3 d 0 0)
    by (unfold vsub; cbn; f_equal; lra).
  rewrite normalized_along_x by exact Hd.
  unfold dot. cbn.
  rewrite Rgtb_true by lra. rewrite Rleb_true by lra. reflexivity.
Qed.

(** On the flight along y, seen from a point of the flight with the
    boresight along x, no sample is in view when the threshold is not
    negative. *)
Lemma in_view_sideways (c : Pa_checker) (y t : R) :
  0 <= cos (angle c / 2) ->
  in_view c Scenario.along_y (mkV3 1 0 0) (mkV3 0 y 0) t = false.
Proof.
  intros Hc. unfold in_view. cbn [Traj.getPos Scenario.along_y piecePos].
  replace (vsub (mkV3 0 t 0) (mkV3 0 y 0)) with (mkV3 0 (t - y) 0)
    by (unfold vsub; cbn; f_equal; lra).
  rewrite dot_x_normalized_along_y.
  rewrite Rgtb_false by lra. reflexivity.
Qed.

(** Late on the flight along x, the only sample left is in view: the call
    moves the marker and leaves the flag as it was. *)
Lemma check_late_along_x :
  check Scenario.late Scenario.along_x Scenario.level (mkV3 9.95 0 0) 0.1 9.95 =
    mkPa_checker (9.95 + 0.01) 4 4 false 40.
Proof.
  unfold check. rewrite boresight_level.
  assert (Hc : clamp Scenario.late 9.95 = mkPa_checker 9.95 4 4 false 40).
  { unfold clamp. cbn. rewrite Rleb_true by lra. reflexivity. }
  rewrite Hc. cbn [progress_t].
  rewrite scan_unfold, getTotalDuration_along_x.
  rewrite Rleb_true by lra.
  rewrite in_view_ahead; cbn; try lra; [| apply cos_20_between].
  rewrite scan_unfold, getTotalDuration_along_x.
  rewrite Rleb_false by lra. reflexivity.
Qed.


(** At the start of the flight along y with the boresight along x, the
    first sample is out of view. *)
Lemma check_sideways (speed : R) :
  check Scenario.fresh Scenario.along_y Scenario.level Scenario.origin speed 0 =
    decide_safe Scenario.fresh Scenario.along_y Scenario.origin speed.
Proof.
  unfold check. rewrite boresight_level.
  pose proof clamp_fresh as Hc.
  rewrite Hc. cbn [progress_t Scenario.fresh pa_checker.make].
  rewrite scan_unfold, getTotalDuration_along_y.
  rewrite Rleb_true by lra.
  unfold Scenario.origin.
  rewrite in_view_sideways; [reflexivity |].
  cbn. pose proof cos_20_between. lra.
Qed.

(** There, the very first sample is the first failing one. *)
Lemma sideways_first_failure :
  first_failure Scenario.along_y (boresight Scenario.level) Scenario.origin
                (clamp Scenario.fresh 0) (progress_t (clamp Scenario.fresh 0) + 0.01) 0.
Proof.
  rewrite boresight_level, clamp_fresh. repeat split.
  - intros j Hj. lia.
  - rewrite getTotalDuration_along_y. cbn. lra.
  - unfold Scenario.origin. apply in_view_sideways.
    cbn. pose proof cos_20_between. lra.
Qed.

Lemma sideways_has_failing_sample :
  exists k,
    sample (progress_t (clamp Scenario.fresh 0) + 0.01) k <=
      Traj.getTotalDuration Scenario.along_y /\
    in_view (clamp Scenario.fresh 0) Scenario.along_y (boresight Scenario.level)
            Scenario.origin (sample (progress_t (clamp Scenario.fresh 0) + 0.01) k) = false.
Proof.
  exists 0%nat. destruct sideways_first_failure as (_ & Hin & Hfail).
  split; assumption.
Qed.

(** Late on the flight along x, the one sample left passes. *)
Lemma late_no_failure :
  no_failure Scenario.along_x (boresight Scenario.level) (mkV3 9.95 0 0)
             (clamp Scenario.late 9.95) (progress_t (clamp Scenario.late 9.95) + 0.01).
Proof.
  assert (Hc : clamp Scenario.late 9.95 = mkPa_checker 9.95 4 4 false 40).
  { unfold clamp. cbn. rewrite Rleb_true by lra. reflexivity. }
  rewrite Hc, boresight_level. cbn [progress_t].
  intros k Hk. rewrite getTotalDuration_along_x in Hk.
  destruct k as [| k].
  - cbn [sample]. apply in_view_ahead; cbn; try lra. apply cos_20_between.
  - exfalso. rewrite sample_closed_form in Hk. rewrite S_INR in Hk.
    pose proof (pos_INR k). lra.
Qed.

(** ** The stopping-distance test in binary64 *)

(** The square of the speed 1e-200 underflows to zero: with s = 0 the test
    of line 49 computes 0 > 0 and writes "safe", although the speed is
    positive. *)
Lemma tiny_speed_is_judged_safe :
  PrimFloat.ltb Double.zero Double.tiny_speed = true /\
  PrimFloat.eqb (PrimFloat.mul Double.tiny_speed Double.tiny_speed) Double.zero = true /\
  Double.safe_flag Double.tiny_speed Double.four Double.zero = true.
Proof. repeat split. Qed.

(** At 1 m/s the same test writes "unsafe". *)
Lemma unit_speed_is_judged_unsafe : Double.safe_flag Double.one Double.four Double.zero = false.
Proof. reflexivity. Qed.

(** ** The safe flag *)

(** C2, as the code has it.  A call of [check] writes the flag exactly when
    a scanned sample fails the cone and range test, and then with the
    stopping-distance test taken at the marker the call leaves.  When every
    scanned sample passes, or none is scanned, the flag keeps the value it
    had before the call, and the marker ends within one step of the total
    duration if a sample was scanned. *)
Theorem safe_written_when_a_sample_fails (c : Pa_checker) (traj : Trajectory)
        (quat : Vector4d) (pos : Vector3d) (speed delta : R) :
  let c1 := clamp c delta in
  let h := boresight quat in
  let t0 := progress_t c1 + 0.01 in
  let c' := check c traj quat pos speed delta in
  let s := norm (vsub (Traj.getPos traj (getProgress c')) pos) in
  ((exists k, sample t0 k <= Traj.getTotalDuration traj /\
              in_view c1 traj h pos (sample t0 k) = false) ->
   getSafeFlag c' = (if Rgtb (speed * speed - 2 * a_max c * s) 0 then false else true)) /\
  (no_failure traj h pos c1 t0 ->
   getSafeFlag c' = getSafeFlag c /\
   (t0 <= Traj.getTotalDuration traj ->
    Traj.getTotalDuration traj - 0.05 < getProgress c' <= Traj.getTotalDuration traj)).
Proof.
  cbv zeta. unfold getSafeFlag, getProgress. split.
  - intros Hex. pose proof (check_decision c traj quat pos speed delta Hex) as Hd.
    unfold Rgtb.
    destruct (Rgt_dec _ 0) as [Hgt | Hngt].
    + apply Hd. exact Hgt.
    + destruct (safe (check c traj quat pos speed delta)) eqn:Hs; [reflexivity |].
      exfalso. apply Hngt. apply Hd. reflexivity.
  - apply check_no_failure.
Qed.

Lemma safe_written_when_a_sample_fails_witness :
  getSafeFlag (check Scenario.fresh Scenario.along_y Scenario.level Scenario.origin 1 0) =
    false /\
  getSafeFlag (check Scenario.late Scenario.along_x Scenario.level (mkV3 9.95 0 0) 0.1 9.95) =
    getSafeFlag Scenario.late.
Proof.
  split.
  - rewrite (proj1 (safe_written_when_a_sample_fails Scenario.fresh Scenario.along_y
                      Scenario.level Scenario.origin 1 0) sideways_has_failing_sample).
    rewrite check_sideways. unfold getProgress.
    cbn [decide_safe progress_t set_safe Scenario.fresh pa_checker.make a_max].
    cbn [Traj.getPos Scenario.along_y piecePos]. unfold Scenario.origin.
    rewrite norm_vsub_self. rewrite Rgtb_true by lra. reflexivity.
  - apply (proj2 (safe_written_when_a_sample_fails Scenario.late Scenario.along_x
                    Scenario.level (mkV3 9.95 0 0) 0.1 9.95) late_no_failure).
Defined.

(** C2, counterexample.  Late on the flight along x the one sample left is
    in view; the flag stays false although the stopping-distance test of
    that call says "safe" (0.1 m/s, 1 cm to the marker, 4 m/s^2). *)
Lemma safe_stale_when_all_samples_pass :
  ~ Specification.safe_is_fresh Scenario.late Scenario.along_x Scenario.level
      (mkV3 9.95 0 0) 0.1 9.95.
Proof.
  unfold Specification.safe_is_fresh. cbv zeta.
  rewrite check_late_along_x. cbn [safe progress_t a_max Scenario.late].
  cbn [Traj.getPos Scenario.along_x piecePos].
  replace (vsub (mkV3 (9.95 + 0.01) 0 0) (mkV3 9.95 0 0)) with (mkV3 0.01 0 0)
    by (unfold vsub; cbn; f_equal; lra).
  rewrite norm_along_x by lra.
  intros [H _]. specialize (H eq_refl). lra.
Qed.




(** ** The first failing sample *)






(** ** The test of one sample *)

Lemma in_view_marker_at (c : Pa_checker) (traj : Trajectory) (h pos : Vector3d)
      (t0 : R) (k : nat) (t : R) :
  in_view (marker_at c t0 k) traj h pos t = in_view c traj h pos t.
Proof. destruct k; reflexivity. Qed.

(** The scan that has accepted the samples before number [k] goes on from
    sample [k] with the marker on the sample before. *)
Lemma scan_prefix (traj : Trajectory) (h pos : Vector3d) (speed : R) (k : nat) :
  forall (c : Pa_checker) (t0 : R),
    (forall j, (j < k)%nat -> in_view c traj h pos (sample t0 j) = true) ->
    sample t0 k <= Traj.getTotalDuration traj ->
    scan traj h pos speed c t0 = scan traj h pos speed (marker_at c t0 k) (sample t0 k).
Proof.
  induction k as [| k IH]; intros c t0 Hbefore Hin.
  - reflexivity.
  - assert (H0 : in_view c traj h pos t0 = true) by (apply (Hbefore 0%nat); lia).
    assert (Ht0 : t0 <= Traj.getTotalDuration traj).
    { pose proof (sample_lt t0 0 (S k) ltac:(lia)) as Hlt. simpl in Hlt. simpl in Hin. lra. }
    rewrite scan_unfold, (Rleb_true _ _ Ht0), H0.
    rewrite <- marker_at_shift, <- sample_shift. apply IH.
    + intros j Hj. rewrite sample_shift, in_view_set_progress_t. apply Hbefore. lia.
    + rewrite sample_shift. exact Hin.
Qed.

(** C3, as the code has it.  A sample that the scan of a call reaches, at a
    time [t] within the duration, is accepted (the marker is moved to [t],
    and so ends at [t] or later) if and only if the cosine between the
    boresight and the normalised offset [d] is strictly above
    [cos (angle / 2)], where [angle] is the value configured at
    construction, which the code halves, and the projection of [d] on the
    boresight is at most the configured range.  A sample whose projection
    is exactly the range is accepted when it is inside the cone; a sample
    exactly on the cone boundary is rejected. *)
Theorem sample_accepted_iff_in_cone_and_range (c : Pa_checker) (traj : Trajectory)
        (quat : Vector4d) (pos : Vector3d) (speed delta : R) (k : nat) :
  let c1 := clamp c delta in
  let h := boresight quat in
  let t0 := progress_t c1 + 0.01 in
  let c' := check c traj quat pos speed delta in
  let t := sample t0 k in
  let d := vsub (Traj.getPos traj t) pos in
  (forall j, (j < k)%nat -> in_view c1 traj h pos (sample t0 j) = true) ->
  t <= Traj.getTotalDuration traj ->
  (t <= getProgress c' <->
   dot h (normalized d) > cos (angle c / 2) /\ dot h d <= max_dist c) /\
  (dot h d = max_dist c -> dot h (normalized d) > cos (angle c / 2) ->
   t <= getProgress c') /\
  (dot h (normalized d) = cos (angle c / 2) -> getProgress c' < t).
Proof.
  cbv zeta. unfold getProgress. intros Hbefore Hin.
  set (c1 := clamp c delta) in *.
  set (t0 := progress_t c1 + 0.01) in *.
  set (h := boresight quat) in *.
  set (t := sample t0 k) in *.
  assert (Hcfg : angle c1 = angle c /\ max_dist c1 = max_dist c).
  { unfold c1. pose proof (clamp_config c delta). tauto. }
  destruct Hcfg as [Hang Hmax].
  assert (Heq : check c traj quat pos speed delta =
                scan traj h pos speed (marker_at c1 t0 k) t).
  { unfold check. apply scan_prefix; assumption. }
  assert (Hlt : progress_t (marker_at c1 t0 k) < t).
  { unfold t, t0. apply marker_at_before_sample. }
  assert (Hview : in_view (marker_at c1 t0 k) traj h pos t = true <->
                  dot h (normalized (vsub (Traj.getPos traj t) pos)) > cos (angle c / 2) /\
                  dot h (vsub (Traj.getPos traj t) pos) <= max_dist c).
  { rewrite in_view_marker_at, in_view_iff, Hang, Hmax. tauto. }
  assert (Hacc : in_view (marker_at c1 t0 k) traj h pos t = true ->
                 t <= progress_t (check c traj quat pos speed delta)).
  { intros Hv. rewrite Heq, scan_unfold, (Rleb_true _ _ Hin), Hv.
    pose proof (scan_progress_ge traj h pos speed
                  (set_progress_t (marker_at c1 t0 k) t) (t + 0.05)) as Hge.
    simpl in Hge. apply Hge. lra. }
  assert (Hrej : in_view (marker_at c1 t0 k) traj h pos t = false ->
                 progress_t (check c traj quat pos speed delta) < t).
  { intros Hv. rewrite Heq, scan_unfold, (Rleb_true _ _ Hin), Hv. simpl. exact Hlt. }
  repeat split.
  - destruct (in_view (marker_at c1 t0 k) traj h pos t) eqn:Hv.
    + apply Hview. reflexivity.
    + specialize (Hrej eq_refl). lra.
  - destruct (in_view (marker_at c1 t0 k) traj h pos t) eqn:Hv.
    + apply Hview. reflexivity.
    + specialize (Hrej eq_refl). lra.
  - intros Hcr. apply Hacc. apply Hview. exact Hcr.
  - intros Hr Hc. apply Hacc. apply Hview. split; [exact Hc | lra].
  - intros Hb. apply Hrej.
    destruct (in_view (marker_at c1 t0 k) traj h pos t) eqn:Hv; [| reflexivity].
    exfalso. destruct (proj1 Hview eq_refl) as [Hc _]. lra.
Qed.

Lemma sample_accepted_iff_in_cone_and_range_witness :
  sample (progress_t (clamp Scenario.fresh 0) + 0.01) 0 <=
    getProgress (check Scenario.fresh Scenario.along_x Scenario.level Scenario.origin 1 0).
Proof.
  pose proof clamp_fresh as Hc.
  pose proof (sample_accepted_iff_in_cone_and_range Scenario.fresh Scenario.along_x
                Scenario.level Scenario.origin 1 0 0) as W.
  cbv zeta in W.
  assert (H1 : forall j, (j < 0)%nat ->
             in_view (clamp Scenario.fresh 0) Scenario.along_x (boresight Scenario.level)
                     Scenario.origin
                     (sample (progress_t (clamp Scenario.fresh 0) + 0.01) j) = true).
  { intros j Hj. lia. }
  assert (H2 : sample (progress_t (clamp Scenario.fresh 0) + 0.01) 0 <=
               Traj.getTotalDuration Scenario.along_x).
  { rewrite getTotalDuration_along_x, Hc. cbn. lra. }
  destruct (W H1 H2) as [Hiff _]. apply Hiff.
  rewrite boresight_level, Hc.
  cbn [sample progress_t Scenario.fresh pa_checker.make].
  cbn [Traj.getPos Scenario.along_x piecePos]. unfold Scenario.origin.
  replace (vsub (mkV3 (0 + 0.01) 0 0) (mkV3 0 0 0)) with (mkV3 0.01 0 0)
    by (unfold vsub; cbn; f_equal; lra).
  rewrite normalized_along_x by lra.
  unfold dot. cbn. pose proof cos_20_between. split; lra.
Defined.

(** C3, counterexample.  With the configured angle 40.0 read as the
    half-angle, the first sample of the flight along y, at a right angle to
    the boresight, passes the test of the specification (0 > cos 40), but
    the code compares with cos 20 > 0 and rejects it: the marker stays
    at 0. *)
Lemma right_angle_sample_rejected :
  ~ Specification.accepted_iff_half_angle Scenario.fresh Scenario.along_y Scenario.level
      Scenario.origin 1 0 0.
Proof.
  unfold Specification.accepted_iff_half_angle. cbv zeta. intros H.
  pose proof clamp_fresh as Hc.
  rewrite Hc, boresight_level, check_sideways in H.
  cbn [sample progress_t Scenario.fresh pa_checker.make] in H.
  assert (Hlate : 0 + 0.01 <= getProgress
            (decide_safe (mkPa_checker 0 4 4 false 40) Scenario.along_y Scenario.origin 1)).
  { apply H.
    - intros j Hj. lia.
    - rewrite getTotalDuration_along_y. lra.
    - unfold Specification.in_view_half_angle. cbv zeta.
      cbn [Traj.getPos Scenario.along_y piecePos angle max_dist]. unfold Scenario.origin.
      replace (vsub (mkV3 0 (0 + 0.01) 0) (mkV3 0 0 0)) with (mkV3 0 0.01 0)
        by (unfold vsub; cbn; f_equal; lra).
      rewrite dot_x_normalized_along_y. unfold dot. cbn.
      pose proof cos_40_negative. split; lra. }
  unfold getProgress in Hlate. simpl in Hlate. lra.
Qed.

(** ** The replanning trigger *)

Import GlobalPlanner.

(** C1, as the code has it.  When two goal points are buffered, a route is
    found and then the pipeline fails ([setup] refuses, or the optimiser
    returns an infinite cost), the recorded start time is not updated and
    the goal buffer, the map and the configuration are untouched; but
    [plan] has cleared the trajectory and the monitor before it called
    [setup]: the monitor holds marker 0 and flag false with its
    configuration unchanged, and the trajectory is empty after a refused
    [setup], and what the optimiser left in the cleared trajectory after an
    infinite cost. *)
Theorem failed_plan_clears_before_failing (env : Planner) (g : GlobalPlanner) :
  pipeline_fails env g ->
  let g' := fst (plan env g) in
  trajStamp g' = trajStamp g /\
  startGoal g' = startGoal g /\
  voxelMap g' = voxelMap g /\
  config g' = config g /\
  paChecker g' = pa_checker.clear (paChecker g) /\
  getProgress (paChecker g') = 0 /\
  getSafeFlag (paChecker g') = false /\
  (setup_fails env g -> traj g' = []) /\
  (optimize_fails env g ->
   traj g' = snd (optimize env (hd Zero (route_of env g)) (last (route_of env g) Zero)
                           (hPolys_of env g) [])).
Proof.
  intros (Hlen & Hroute & Hfail). cbv zeta. unfold plan.
  rewrite Hlen. cbn [Nat.eqb].
  apply Nat.ltb_lt in Hroute. rewrite Hroute.
  unfold setup_fails, optimize_fails in *.
  destruct (setup env (hd Zero (route_of env g)) (last (route_of env g) Zero)
                  (hPolys_of env g)) eqn:Hsetup.
  - destruct Hfail as [Hf | [_ Hinf]]; [discriminate |].
    cbn [negb set_traj set_paChecker traj]. unfold Traj.clear.
    destruct (optimize env (hd Zero (route_of env g)) (last (route_of env g) Zero)
                       (hPolys_of env g) []) as [cost traj'] eqn:Hopt.
    cbn [fst] in Hinf. rewrite Hinf. cbn.
    repeat split; intros; try reflexivity; try discriminate.
  - cbn. repeat split; intros; try reflexivity.
    destruct H as [Hs _]. discriminate.
Qed.

Lemma failed_plan_clears_before_failing_witness :
  trajStamp (fst (plan Scenario.refusing (Scenario.flying Scenario.all_free))) = 7 /\
  traj (fst (plan Scenario.diverging (Scenario.flying Scenario.all_free))) = [].
Proof.
  split.
  - apply (failed_plan_clears_before_failing Scenario.refusing
             (Scenario.flying Scenario.all_free)).
    repeat split.
    + cbn. lia.
    + left. reflexivity.
  - assert (Hf : pipeline_fails Scenario.diverging (Scenario.flying Scenario.all_free)).
    { repeat split.
      - cbn. lia.
      - right. split; reflexivity. }
    destruct (failed_plan_clears_before_failing Scenario.diverging
                (Scenario.flying Scenario.all_free) Hf)
      as (_ & _ & _ & _ & _ & _ & _ & _ & Hopt).
    rewrite Hopt; [reflexivity |]. split; reflexivity.
Defined.

(** C1, counterexample.  In flight along x with the monitor midway (marker
    2.5, flag true), a second plan whose [setup] refuses leaves no
    trajectory and a monitor at marker 0 with flag false. *)
Lemma failed_plan_drops_the_trajectory :
  ~ Specification.failure_keeps_state Scenario.refusing (Scenario.flying Scenario.all_free).
Proof.
  unfold Specification.failure_keeps_state. intros H.
  assert (Hf : pipeline_fails Scenario.refusing (Scenario.flying Scenario.all_free)).
  { repeat split.
    - cbn. lia.
    - left. reflexivity. }
  destruct (H Hf) as (Htraj & _). cbn in Htraj. discriminate.
Qed.

(** What the goal callback does with a request for an occupied point. *)
Lemma targetCallBack_occupied (env : Planner) (g : GlobalPlanner) (msg : PoseStamped) :
  query (voxelMap g) (goal_of (config g) msg) <> 0%nat ->
  targetCallBack env g msg =
    if mapInitialized g
    then (if Nat.leb 2 (length (startGoal g)) then set_startGoal g [] else g,
          [CallWarnInfeasible])
    else (g, []).
Proof.
  intros Hocc. apply Nat.eqb_neq in Hocc. unfold targetCallBack.
  destruct (mapInitialized g); [| reflexivity].
  destruct (Nat.leb 2 (length (startGoal g))) eqn:Hfull.
  - cbn [config voxelMap set_startGoal]. rewrite Hocc. reflexivity.
  - rewrite Hocc. apply Nat.leb_gt in Hfull.
    assert (Hne : Nat.eqb (length (startGoal g)) 2 = false)
      by (apply Nat.eqb_neq; lia).
    unfold plan. rewrite Hne. reflexivity.
Qed.

(** C4, as the code has it.  A goal request whose point the map reports as
    occupied is not appended to the goal buffer and runs no step of the
    planner pipeline; trajectory, start time, monitor, map and
    configuration are unchanged.  The goal buffer is unchanged when it held
    fewer than two points, so that the whole state is unchanged; when it
    held two points or more it is emptied, before the map is asked. *)
Theorem occupied_goal_is_not_buffered (env : Planner) (g : GlobalPlanner)
        (msg : PoseStamped) :
  query (voxelMap g) (goal_of (config g) msg) <> 0%nat ->
  let r := targetCallBack env g msg in
  existsb is_planner_call (snd r) = false /\
  ~ In CallVisualizeStartGoal (snd r) /\
  traj (fst r) = traj g /\ trajStamp (fst r) = trajStamp g /\
  paChecker (fst r) = paChecker g /\ voxelMap (fst r) = voxelMap g /\
  config (fst r) = config g /\ mapInitialized (fst r) = mapInitialized g /\
  startGoal (fst r) =
    (if mapInitialized g && Nat.leb 2 (length (startGoal g)) then [] else startGoal g) /\
  ((length (startGoal g) < 2)%nat -> fst r = g).
Proof.
  intros Hocc. cbv zeta. rewrite (targetCallBack_occupied env g msg Hocc).
  destruct (mapInitialized g) eqn:Hinit; [| cbn; intuition discriminate].
  destruct (Nat.leb 2 (length (startGoal g))) eqn:Hfull; cbn.
  - apply Nat.leb_le in Hfull.
    repeat match goal with |- _ /\ _ => split end; try reflexivity.
    + intros [H | []]. discriminate.
    + exact Hinit.
    + intros Hlt. lia.
  - repeat match goal with |- _ /\ _ => split end; try reflexivity.
    + intros [H | []]. discriminate.
    + exact Hinit.
Qed.

Lemma occupied_goal_is_not_buffered_witness :
  startGoal (fst (targetCallBack Scenario.refusing (Scenario.one_goal Scenario.all_occupied)
                                 Scenario.request)) = [Scenario.start_point] /\
  startGoal (fst (targetCallBack Scenario.refusing (Scenario.flying Scenario.all_occupied)
                                 Scenario.request)) = [].
Proof.
  split.
  - assert (Hocc : query (voxelMap (Scenario.one_goal Scenario.all_occupied))
                         (goal_of (config (Scenario.one_goal Scenario.all_occupied))
                                  Scenario.request) <> 0%nat).
    { cbn. lia. }
    destruct (occupied_goal_is_not_buffered Scenario.refusing
                (Scenario.one_goal Scenario.all_occupied) Scenario.request Hocc)
      as (_ & _ & _ & _ & _ & _ & _ & _ & Hbuf & _).
    rewrite Hbuf. reflexivity.
  - assert (Hocc : query (voxelMap (Scenario.flying Scenario.all_occupied))
                         (goal_of (config (Scenario.flying Scenario.all_occupied))
                                  Scenario.request) <> 0%nat).
    { cbn. lia. }
    destruct (occupied_goal_is_not_buffered Scenario.refusing
                (Scenario.flying Scenario.all_occupied) Scenario.request Hocc)
      as (_ & _ & _ & _ & _ & _ & _ & _ & Hbuf & _).
    rewrite Hbuf. reflexivity.
Defined.

(** C4, counterexample.  With two goal points buffered, a request for an
    occupied point empties the goal buffer: its size goes from 2 to 0. *)
Lemma occupied_goal_empties_full_buffer :
  ~ Specification.occupied_goal_is_ignored Scenario.refusing
      (Scenario.flying Scenario.all_occupied) Scenario.request.
Proof.
  unfold Specification.occupied_goal_is_ignored. intros H.
  assert (Hocc : query (voxelMap (Scenario.flying Scenario.all_occupied))
                       (goal_of (config (Scenario.flying Scenario.all_occupied))
                                Scenario.request) <> 0%nat).
  { cbn. lia. }
  destruct (H Hocc) as [Hlen _]. cbn in Hlen. discriminate.
Qed.

(** * Further properties of the code *)

(** ** [check]: what a call leaves alone *)

Lemma check_config (c : Pa_checker) (traj : Trajectory) (quat : Vector4d)
      (pos : Vector3d) (speed delta : R) :
  a_max (check c traj quat pos speed delta) = a_max c /\
  max_dist (check c traj quat pos speed delta) = max_dist c /\
  angle (check c traj quat pos speed delta) = angle c.
Proof.
  unfold check.
  destruct (scan_config traj (boresight quat) pos speed (clamp c delta)
                        (progress_t (clamp c delta) + 0.01)) as (Ha & Hm & Hg).
  destruct (clamp_config c delta) as (Ha' & Hm' & Hg' & _).
  rewrite Ha, Hm, Hg. repeat split; assumption.
Qed.

(** X1.  A call of [check] never changes the configuration of the checker:
    maximum deceleration, maximum range and cone angle are those set at
    construction. *)
Theorem check_keeps_configuration (c : Pa_checker) (traj : Trajectory) (quat : Vector4d)
        (pos : Vector3d) (speed delta : R) :
  a_max (check c traj quat pos speed delta) = a_max c /\
  max_dist (check c traj quat pos speed delta) = max_dist c /\
  angle (check c traj quat pos speed delta) = angle c.
Proof. apply check_config. Qed.

Lemma scan_progress_speed (traj : Trajectory) (h pos : Vector3d) (v1 v2 : R)
      (c : Pa_checker) (t : R) :
  progress_t (scan traj h pos v1 c t) = progress_t (scan traj h pos v2 c t).
Proof.
  apply (scan_loop_ind traj h pos v1
           (fun c t c' => progress_t c' = progress_t (scan traj h pos v2 c t))).
  - intros c0 t0 Hgt. rewrite scan_unfold, Rleb_false by exact Hgt. reflexivity.
  - intros c0 t0 Hle Hv. rewrite scan_unfold, (Rleb_true _ _ Hle), Hv. reflexivity.
  - intros c0 t0 Hle Hv IH. rewrite IH.
    rewrite (scan_unfold traj h pos v2 c0 t0), (Rleb_true _ _ Hle), Hv. reflexivity.
Qed.

Lemma check_progress_speed (c : Pa_checker) (traj : Trajectory) (quat : Vector4d)
      (pos : Vector3d) (v1 v2 delta : R) :
  progress_t (check c traj quat pos v1 delta) = progress_t (check c traj quat pos v2 delta).
Proof. unfold check. apply scan_progress_speed. Qed.

(** X2.  The marker that a call of [check] leaves does not depend on the
    speed it is given: the scan is purely geometric. *)
Theorem marker_independent_of_speed (c : Pa_checker) (traj : Trajectory) (quat : Vector4d)
        (pos : Vector3d) (v1 v2 delta : R) :
  getProgress (check c traj quat pos v1 delta) =
  getProgress (check c traj quat pos v2 delta).
Proof. unfold getProgress. apply check_progress_speed. Qed.

(** X3.  On a call whose scan meets a failing sample, a lower speed is
    never judged less safe: if the flag is true at speed [v], it is true at
    every speed of at most the same magnitude, same inputs otherwise. *)
Theorem slower_is_never_less_safe (c : Pa_checker) (traj : Trajectory) (quat : Vector4d)
        (pos : Vector3d) (v v' delta : R) :
  (exists k,
      sample (progress_t (clamp c delta) + 0.01) k <= Traj.getTotalDuration traj /\
      in_view (clamp c delta) traj (boresight quat) pos
              (sample (progress_t (clamp c delta) + 0.01) k) = false) ->
  Rabs v' <= Rabs v ->
  getSafeFlag (check c traj quat pos v delta) = true ->
  getSafeFlag (check c traj quat pos v' delta) = true.
Proof.
  unfold getSafeFlag. intros Hex Habs Hsafe.
  pose proof (check_decision c traj quat pos v delta Hex) as Hv.
  pose proof (check_decision c traj quat pos v' delta Hex) as Hv'.
  rewrite (check_progress_speed c traj quat pos v' v delta) in Hv'.
  destruct (safe (check c traj quat pos v' delta)) eqn:Hs'; [reflexivity |].
  exfalso. apply proj1 in Hv'. specialize (Hv' eq_refl).
  assert (Hsq : v' * v' <= v * v).
  { apply Rsqr_le_abs_1 in Habs. unfold Rsqr in Habs. exact Habs. }
  assert (Hgt : v * v - 2 * a_max c *
                norm (vsub (Traj.getPos traj (progress_t (check c traj quat pos v delta))) pos)
                > 0) by lra.
  apply Hv in Hgt. congruence.
Qed.

(** On the flight along x, seen from the point of the flight at time [x]
    with the boresight along x, a later sample is judged by the threshold
    and by its distance alone. *)
Lemma in_view_along_x (c : Pa_checker) (x t : R) :
  x < t ->
  in_view c Scenario.along_x (mkV3 1 0 0) (mkV3 x 0 0) t =
    Rgtb 1 (cos (angle c / 2)) && Rleb (t - x) (max_dist c).
Proof.
  intros Hlt. unfold in_view. cbn [Traj.getPos Scenario.along_x piecePos].
  replace (vsub (mkV3 t 0 0) (mkV3 x 0 0)) with (mkV3 (t - x) 0 0)
    by (unfold vsub; cbn; f_equal; lra).
  rewrite normalized_along_x by lra.
  unfold dot. cbn.
  replace (1 * 1 + 0 * 0 + 0 * 0) with 1 by lra.
  replace (1 * (t - x) + 0 * 0 + 0 * 0) with (t - x) by lra.
  reflexivity.
Qed.

Lemma clamp_short_sighted : clamp Scenario.short_sighted 0 = Scenario.short_sighted.
Proof. unfold clamp. cbn. rewrite Rleb_true by lra. reflexivity. Qed.

(** With a range of 3 cm the sample at 0.01 passes and the one at 0.06
    fails. *)
Lemma check_short_sighted (v : R) :
  check Scenario.short_sighted Scenario.along_x Scenario.level Scenario.origin v 0 =
    decide_safe (mkPa_checker (0 + 0.01) 4 0.03 false 40) Scenario.along_x Scenario.origin v.
Proof.
  unfold check. rewrite boresight_level, clamp_short_sighted.
  unfold Scenario.short_sighted, Scenario.origin. cbn [progress_t].
  pose proof cos_20_between as [_ Hc].
  rewrite scan_unfold, getTotalDuration_along_x, Rleb_true by lra.
  rewrite in_view_along_x by lra. cbn [angle max_dist].
  rewrite Rgtb_true by lra. rewrite Rleb_true by lra. cbn [andb].
  rewrite scan_unfold, getTotalDuration_along_x, Rleb_true by lra.
  rewrite in_view_along_x by lra. cbn [angle max_dist set_progress_t].
  rewrite Rgtb_true by lra. rewrite Rleb_false by lra. reflexivity.
Qed.

Lemma short_sighted_has_failing_sample :
  exists k,
    sample (progress_t (clamp Scenario.short_sighted 0) + 0.01) k <=
      Traj.getTotalDuration Scenario.along_x /\
    in_view (clamp Scenario.short_sighted 0) Scenario.along_x (boresight Scenario.level)
            Scenario.origin (sample (progress_t (clamp Scenario.short_sighted 0) + 0.01) k) =
      false.
Proof.
  exists 1%nat. rewrite boresight_level, clamp_short_sighted, getTotalDuration_along_x.
  unfold Scenario.short_sighted, Scenario.origin. cbn [sample progress_t]. split; [lra |].
  rewrite in_view_along_x by lra. cbn [angle max_dist].
  rewrite Rleb_false by lra. apply andb_false_r.
Qed.

Lemma safe_short_sighted (v : R) :
  v * v <= 0.08 ->
  safe (check Scenario.short_sighted Scenario.along_x Scenario.level Scenario.origin v 0) =
    true.
Proof.
  intros Hv. rewrite check_short_sighted. unfold decide_safe.
  cbn [safe set_safe progress_t a_max Traj.getPos Scenario.along_x piecePos].
  unfold Scenario.origin.
  replace (vsub (mkV3 (0 + 0.01) 0 0) (mkV3 0 0 0)) with (mkV3 0.01 0 0)
    by (unfold vsub; cbn; f_equal; lra).
  rewrite norm_along_x by lra. rewrite Rgtb_false by lra. reflexivity.
Qed.

Lemma slower_is_never_less_safe_witness :
  getSafeFlag (check Scenario.short_sighted Scenario.along_x Scenario.level
                     Scenario.origin 0.1 0) = true.
Proof.
  apply (slower_is_never_less_safe Scenario.short_sighted Scenario.along_x Scenario.level
           Scenario.origin 0.2 0.1 0 short_sighted_has_failing_sample).
  - rewrite !Rabs_pos_eq by lra. lra.
  - apply safe_short_sighted. lra.
Defined.

(** X4.  When the clamped marker is within a hundredth of a second of the
    end of the trajectory, or past it, no sample is scanned: the call only
    clamps the marker, and the flag keeps its value. *)
Theorem check_without_samples_only_clamps (c : Pa_checker) (traj : Trajectory)
        (quat : Vector4d) (pos : Vector3d) (speed delta : R) :
  Traj.getTotalDuration traj < Rmax (progress_t c) delta + 0.01 ->
  check c traj quat pos speed delta = clamp c delta /\
  getProgress (check c traj quat pos speed delta) = Rmax (progress_t c) delta /\
  getSafeFlag (check c traj quat pos speed delta) = getSafeFlag c.
Proof.
  intros Hlate. rewrite <- clamp_progress in Hlate.
  assert (Heq : check c traj quat pos speed delta = clamp c delta).
  { unfold check. rewrite scan_unfold, Rleb_false by exact Hlate. reflexivity. }
  rewrite Heq. unfold getProgress, getSafeFlag. repeat split.
  - apply clamp_progress.
  - apply (clamp_config c delta).
Qed.

Lemma check_without_samples_only_clamps_witness :
  getProgress (check Scenario.late Scenario.along_x Scenario.level (mkV3 9.995 0 0) 1 9.995) =
    Rmax (progress_t Scenario.late) 9.995.
Proof.
  apply (check_without_samples_only_clamps Scenario.late Scenario.along_x Scenario.level
           (mkV3 9.995 0 0) 1 9.995).
  rewrite getTotalDuration_along_x. cbn [progress_t Scenario.late].
  unfold Rmax. destruct (Rle_dec 9.9 9.995); lra.
Defined.

Lemma scan_progress_on_grid (traj : Trajectory) (h pos : Vector3d) (speed : R)
      (c : Pa_checker) (t : R) :
  progress_t (scan traj h pos speed c t) = progress_t c \/
  exists k, progress_t (scan traj h pos speed c t) = sample t k /\
            sample t k <= Traj.getTotalDuration traj.
Proof.
  apply (scan_loop_ind traj h pos speed (fun c t c' =>
    progress_t c' = progress_t c \/
    exists k, progress_t c' = sample t k /\ sample t k <= Traj.getTotalDuration traj)).
  - intros; left; reflexivity.
  - intros; left; reflexivity.
  - intros c0 t0 Hle _ [IH | (k & Hk & Hin)]; right.
    + exists 0%nat. simpl in *. split; [exact IH | exact Hle].
    + exists (S k). rewrite <- sample_shift. split; assumption.
Qed.

(** X5.  The marker after a call of [check] is either the clamped marker,
    max (marker, elapsed), or one of the sample times
    max (marker, elapsed) + 0.01 + 0.05 k that lie within the duration. *)
Theorem marker_lands_on_a_sample (c : Pa_checker) (traj : Trajectory) (quat : Vector4d)
        (pos : Vector3d) (speed delta : R) :
  getProgress (check c traj quat pos speed delta) = Rmax (progress_t c) delta \/
  exists k : nat,
    getProgress (check c traj quat pos speed delta) =
      Rmax (progress_t c) delta + 0.01 + 0.05 * INR k /\
    Rmax (progress_t c) delta + 0.01 + 0.05 * INR k <= Traj.getTotalDuration traj.
Proof.
  unfold getProgress, check. rewrite <- clamp_progress.
  destruct (scan_progress_on_grid traj (boresight quat) pos speed (clamp c delta)
              (progress_t (clamp c delta) + 0.01)) as [H | (k & Hk & Hin)].
  - left. exact H.
  - right. exists k. rewrite sample_closed_form in Hk, Hin. split; assumption.
Qed.

(** ** The boresight *)

Lemma squaredNorm_rotate_UnitX (q : Quaterniond) :
  squaredNorm (rotate q UnitX) =
    1 + 4 * (qy q * qy q + qz q * qz q) *
        (qw q * qw q + qx q * qx q + qy q * qy q + qz q * qz q - 1).
Proof.
  rewrite rotate_UnitX. unfold squaredNorm, dot. cbn. ring.
Qed.

(** X6.  For a unit quaternion (w, x, y, z) the boresight is the first
    column of its rotation matrix,
    (1 - 2 (y^2 + z^2), 2 (x y + w z), 2 (x z - w y)), and has length 1: the
    normalisation of line 34 changes nothing. *)
Theorem unit_quaternion_boresight (quat : Vector4d) :
  q0 quat * q0 quat + q1 quat * q1 quat + q2 quat * q2 quat + q3 quat * q3 quat = 1 ->
  boresight quat =
    mkV3 (1 - 2 * (q2 quat * q2 quat + q3 quat * q3 quat))
         (2 * (q1 quat * q2 quat + q0 quat * q3 quat))
         (2 * (q1 quat * q3 quat - q0 quat * q2 quat)) /\
  norm (boresight quat) = 1.
Proof.
  intros Hunit. unfold boresight. cbv zeta.
  assert (Hsq : squaredNorm (rotate (mkQuat (q0 quat) (q1 quat) (q2 quat) (q3 quat)) UnitX) = 1).
  { rewrite squaredNorm_rotate_UnitX. cbn [qw qx qy qz]. rewrite Hunit. ring. }
  rewrite (normalized_unit _ Hsq). split.
  - apply rotate_UnitX.
  - unfold norm. rewrite Hsq. apply sqrt_1.
Qed.

Lemma unit_quaternion_boresight_witness :
  norm (boresight Scenario.level) = 1.
Proof.
  apply (unit_quaternion_boresight Scenario.level). cbn. lra.
Defined.

Lemma boresight_opposite (quat : Vector4d) :
  boresight (mkV4 (- q0 quat) (- q1 quat) (- q2 quat) (- q3 quat)) = boresight quat.
Proof.
  unfold boresight. cbv zeta. rewrite !rotate_UnitX. cbn [q0 q1 q2 q3 qw qx qy qz].
  f_equal. f_equal; ring.
Qed.

(** X7.  A quaternion and its opposite describe the same attitude, and
    [check] treats them alike: the call gives the same marker and flag. *)
Theorem check_same_for_opposite_quaternion (c : Pa_checker) (traj : Trajectory)
        (quat : Vector4d) (pos : Vector3d) (speed delta : R) :
  check c traj (mkV4 (- q0 quat) (- q1 quat) (- q2 quat) (- q3 quat)) pos speed delta =
  check c traj quat pos speed delta.
Proof. unfold check. rewrite boresight_opposite. reflexivity. Qed.

(** ** Samples that are not ahead *)

Lemma dot_normalized_nonpos (h d : Vector3d) : dot h d <= 0 -> dot h (normalized d) <= 0.
Proof.
  intros Hd. unfold normalized, Rgtb.
  destruct (Rgt_dec (squaredNorm d) 0) as [Hpos | _]; [| exact Hd].
  assert (Hs : 0 < sqrt (squaredNorm d)) by (apply sqrt_lt_R0; lra).
  replace (dot h (vdiv d (sqrt (squaredNorm d)))) with (dot h d * / sqrt (squaredNorm d))
    by (unfold dot, vdiv, Rdiv; cbn; ring).
  assert (Hi : 0 < / sqrt (squaredNorm d)) by (apply Rinv_0_lt_compat; exact Hs).
  nra.
Qed.

(** X8.  When the cone is at most a half-space (cos (angle / 2) >= 0) and
    the first sample of a call is not ahead of the vehicle (its offset has a
    projection on the boresight that is zero or negative, the zero offset
    included), the sample is rejected: the marker stays at
    max (marker, elapsed) and the flag is the stopping-distance test taken
    there. *)
Theorem first_sample_not_ahead_is_rejected (c : Pa_checker) (traj : Trajectory)
        (quat : Vector4d) (pos : Vector3d) (speed delta : R) :
  let m := Rmax (progress_t c) delta in
  0 <= cos (angle c / 2) ->
  m + 0.01 <= Traj.getTotalDuration traj ->
  dot (boresight quat) (vsub (Traj.getPos traj (m + 0.01)) pos) <= 0 ->
  getProgress (check c traj quat pos speed delta) = m /\
  (getSafeFlag (check c traj quat pos speed delta) = false <->
   speed * speed - 2 * a_max c * norm (vsub (Traj.getPos traj m) pos) > 0).
Proof.
  cbv zeta. rewrite <- clamp_progress. intros Hcos Hin Hdot.
  assert (Hcfg : angle (clamp c delta) = angle c /\ a_max (clamp c delta) = a_max c).
  { pose proof (clamp_config c delta). tauto. }
  destruct Hcfg as [Hang Hamax].
  assert (Hff : first_failure traj (boresight quat) pos (clamp c delta)
                              (progress_t (clamp c delta) + 0.01) 0).
  { repeat split.
    - intros j Hj. lia.
    - exact Hin.
    - cbn [sample]. unfold in_view. cbv zeta. rewrite Hang.
      pose proof (dot_normalized_nonpos _ _ Hdot).
      rewrite Rgtb_false by lra. reflexivity. }
  rewrite (check_first_failure c traj quat pos speed delta 0 Hff).
  cbn [marker_at]. unfold getProgress, getSafeFlag. split.
  - reflexivity.
  - rewrite decide_safe_flag, Hamax. tauto.
Qed.

Lemma first_sample_not_ahead_is_rejected_witness :
  getProgress (check Scenario.fresh Scenario.along_y Scenario.level Scenario.origin 1 0) =
    Rmax (progress_t Scenario.fresh) 0.
Proof.
  assert (Hm : Rmax (progress_t Scenario.fresh) 0 = 0).
  { cbn. unfold Rmax. destruct (Rle_dec 0 0); reflexivity. }
  apply (first_sample_not_ahead_is_rejected Scenario.fresh Scenario.along_y Scenario.level
           Scenario.origin 1 0).
  - cbn. pose proof cos_20_between. lra.
  - rewrite Hm, getTotalDuration_along_y. lra.
  - rewrite Hm, boresight_level.
    unfold dot, vsub, Scenario.origin.
    cbn [Traj.getPos Scenario.along_y piecePos vx vy vz]. lra.
Defined.

(** ** [plan] *)

Ltac plan_cases :=
  unfold plan;
  repeat match goal with
         | |- context [if ?b then _ else _] => destruct b eqn:?
         | |- context [let (_, _) := ?p in _] => destruct p eqn:?
         end.

(** X9.  [plan] does nothing unless exactly two goal points are buffered;
    and when the route search returns fewer than two waypoints the state is
    left as it was, previous trajectory, start time and monitor included:
    only the route search and the corridor construction have run. *)
Theorem plan_needs_two_goals_and_a_route (env : Planner) (g : GlobalPlanner) :
  (length (startGoal g) <> 2%nat -> plan env g = (g, [])) /\
  (length (startGoal g) = 2%nat -> (length (route_of env g) <= 1)%nat ->
   plan env g = (g, [CallPlanPath; CallConvexCover])).
Proof.
  split.
  - intros Hne. apply Nat.eqb_neq in Hne. unfold plan. rewrite Hne. reflexivity.
  - intros Heq Hshort. unfold plan. rewrite Heq. cbn [Nat.eqb].
    assert (Hlt : Nat.ltb 1 (length (route_of env g)) = false)
      by (apply Nat.ltb_ge; exact Hshort).
    rewrite Hlt. reflexivity.
Qed.

Lemma plan_needs_two_goals_and_a_route_witness :
  plan Scenario.succeeding (Scenario.one_goal Scenario.all_free) =
    (Scenario.one_goal Scenario.all_free, []) /\
  plan Scenario.lost (Scenario.flying Scenario.all_free) =
    (Scenario.flying Scenario.all_free, [CallPlanPath; CallConvexCover]).
Proof.
  split.
  - apply (proj1 (plan_needs_two_goals_and_a_route Scenario.succeeding
                    (Scenario.one_goal Scenario.all_free))).
    cbn. lia.
  - apply (proj2 (plan_needs_two_goals_and_a_route Scenario.lost
                    (Scenario.flying Scenario.all_free))).
    + reflexivity.
    + cbn. lia.
Defined.

(** X10.  When two goal points are buffered, a route of at least two
    waypoints is found, [setup] accepts and the optimiser returns a finite
    cost: the trajectory it returns is installed and the monitor is
    cleared; the start time is set to the current time if that trajectory
    has at least one piece, and kept otherwise.  The goal buffer stays as
    it is. *)
Theorem plan_success_installs_and_arms (env : Planner) (g : GlobalPlanner)
        (cost : R) (traj' : Trajectory) :
  length (startGoal g) = 2%nat ->
  (1 < length (route_of env g))%nat ->
  setup env (hd Zero (route_of env g)) (last (route_of env g) Zero) (hPolys_of env g) = true ->
  optimize env (hd Zero (route_of env g)) (last (route_of env g) Zero) (hPolys_of env g) [] =
    (Finite cost, traj') ->
  let g' := fst (plan env g) in
  traj g' = traj' /\
  paChecker g' = pa_checker.clear (paChecker g) /\
  trajStamp g' = (if Nat.ltb 0 (Traj.getPieceNum traj') then now env else trajStamp g) /\
  startGoal g' = startGoal g /\
  In CallOptimize (snd (plan env g)).
Proof.
  intros Hlen Hroute Hsetup Hopt. cbv zeta. unfold plan.
  rewrite Hlen. cbn [Nat.eqb].
  apply Nat.ltb_lt in Hroute. rewrite Hroute, Hsetup.
  cbn [negb set_traj set_paChecker traj]. unfold Traj.clear. rewrite Hopt.
  cbn [isinf traj set_traj].
  destruct (Nat.ltb 0 (Traj.getPieceNum traj')); cbn; repeat split; auto 10.
Qed.

Lemma plan_success_installs_and_arms_witness :
  traj (fst (plan Scenario.succeeding (Scenario.flying Scenario.all_free))) =
    Scenario.along_x /\
  trajStamp (fst (plan Scenario.succeeding (Scenario.flying Scenario.all_free))) = 8.
Proof.
  assert (H1 : length (startGoal (Scenario.flying Scenario.all_free)) = 2%nat)
    by reflexivity.
  assert (H2 : (1 < length (route_of Scenario.succeeding
                                     (Scenario.flying Scenario.all_free)))%nat)
    by (cbn; lia).
  destruct (plan_success_installs_and_arms Scenario.succeeding
              (Scenario.flying Scenario.all_free) 1 Scenario.along_x H1 H2 eq_refl eq_refl)
    as (Ht & _ & Hs & _).
  split; [exact Ht | exact Hs].
Defined.

(** X11.  Whatever the planner does, [plan] never touches the goal buffer,
    the map or the configuration; it either leaves the whole state as it
    was or clears the monitor (marker 0, flag false), so that a changed
    trajectory or start time never comes with an old marker; and it
    changes the start time only to the current time and only with a
    trajectory of at least one piece installed. *)
Theorem plan_resets_monitor_with_any_change (env : Planner) (g : GlobalPlanner) :
  let g' := fst (plan env g) in
  startGoal g' = startGoal g /\ voxelMap g' = voxelMap g /\
  mapInitialized g' = mapInitialized g /\ config g' = config g /\
  (g' = g \/ paChecker g' = pa_checker.clear (paChecker g)) /\
  (trajStamp g' = trajStamp g \/
   (trajStamp g' = now env /\ (0 < Traj.getPieceNum (traj g'))%nat)).
Proof.
  cbv zeta. plan_cases; cbn; repeat split; auto.
  right. split; [reflexivity |].
  match goal with H : Nat.ltb 0 _ = true |- _ => apply Nat.ltb_lt in H; exact H end.
Qed.

(** ** [targetCallBack] *)

Lemma plan_keeps_startGoal (env : Planner) (g : GlobalPlanner) :
  startGoal (fst (plan env g)) = startGoal g.
Proof. plan_cases; reflexivity. Qed.

(** The planner steps in the log of [plan]: all or none. *)
Lemma plan_log (env : Planner) (g : GlobalPlanner) :
  existsb is_planner_call (snd (plan env g)) = Nat.eqb (length (startGoal g)) 2 /\
  count_occ Call_eq_dec (snd (plan env g)) CallPlanPath =
    (if Nat.eqb (length (startGoal g)) 2 then 1 else 0)%nat.
Proof. plan_cases; split; reflexivity. Qed.

Lemma targetCallBack_unfold (env : Planner) (g : GlobalPlanner) (msg : PoseStamped) :
  mapInitialized g = true ->
  targetCallBack env g msg =
    (fst (plan env (set_startGoal g (buffered g msg))),
     (if Nat.eqb (query (voxelMap g) (goal_of (config g) msg)) 0
      then [CallVisualizeStartGoal] else [CallWarnInfeasible]) ++
     snd (plan env (set_startGoal g (buffered g msg)))).
Proof.
  intros Hinit. unfold targetCallBack, buffered. rewrite Hinit.
  destruct (Nat.leb 2 (length (startGoal g))) eqn:Hfull;
    cbn [config voxelMap set_startGoal startGoal];
    destruct (Nat.eqb (query (voxelMap g) (goal_of (config g) msg)) 0) eqn:Hfree.
  - cbn [app]. destruct (plan env _) as [g' log']. reflexivity.
  - cbn [app]. destruct (plan env _) as [g' log']. reflexivity.
  - destruct (plan env _) as [g' log']. reflexivity.
  - rewrite app_nil_r.
    replace (set_startGoal g (startGoal g)) with g by (destruct g; reflexivity).
    destruct (plan env g) as [g' log']. reflexivity.
Qed.

Lemma buffered_length (g : GlobalPlanner) (msg : PoseStamped) :
  (length (buffered g msg) <= 2)%nat /\
  Nat.eqb (length (buffered g msg)) 2 =
    Nat.eqb (query (voxelMap g) (goal_of (config g) msg)) 0 &&
    Nat.eqb (length (startGoal g)) 1.
Proof.
  unfold buffered.
  destruct (Nat.leb 2 (length (startGoal g))) eqn:Hfull;
    destruct (Nat.eqb (query (voxelMap g) (goal_of (config g) msg)) 0);
    rewrite length_app; cbn [length andb].
  - apply Nat.leb_le in Hfull. split; [lia |].
    symmetry. apply Nat.eqb_neq. lia.
  - split; [lia | reflexivity].
  - apply Nat.leb_gt in Hfull. split; [lia |].
    destruct (Nat.eqb_spec (length (startGoal g)) 1) as [He | Hne].
    + rewrite He. reflexivity.
    + apply Nat.eqb_neq. lia.
  - apply Nat.leb_gt in Hfull. split; [lia |]. apply Nat.eqb_neq. lia.
Qed.

(** X12.  After a goal request that arrives once the map is there, the goal
    buffer holds at most two points, whatever it held before: a buffer of
    two or more is emptied first, and the requested point is appended
    exactly when the map reports it free.  Before the map is there the
    request changes nothing and calls nothing. *)
Theorem goal_buffer_after_request (env : Planner) (g : GlobalPlanner) (msg : PoseStamped) :
  if mapInitialized g
  then startGoal (fst (targetCallBack env g msg)) =
         (if Nat.leb 2 (length (startGoal g)) then [] else startGoal g) ++
         (if Nat.eqb (query (voxelMap g) (goal_of (config g) msg)) 0
          then [goal_of (config g) msg] else []) /\
       (length (startGoal (fst (targetCallBack env g msg))) <= 2)%nat
  else targetCallBack env g msg = (g, []).
Proof.
  destruct (mapInitialized g) eqn:Hinit.
  - rewrite (targetCallBack_unfold env g msg Hinit). cbn [fst].
    rewrite plan_keeps_startGoal. cbn [startGoal set_startGoal].
    split; [reflexivity | apply buffered_length].
  - unfold targetCallBack. rewrite Hinit. reflexivity.
Qed.

(** X13.  A goal request runs the planner pipeline exactly when the map is
    there, the requested point is free and exactly one point was buffered
    before; the route search then runs once.  In every other case no step
    of the pipeline runs. *)
Theorem planner_runs_on_second_free_goal (env : Planner) (g : GlobalPlanner)
        (msg : PoseStamped) :
  let trigger := mapInitialized g &&
                 Nat.eqb (query (voxelMap g) (goal_of (config g) msg)) 0 &&
                 Nat.eqb (length (startGoal g)) 1 in
  existsb is_planner_call (snd (targetCallBack env g msg)) = trigger /\
  count_occ Call_eq_dec (snd (targetCallBack env g msg)) CallPlanPath =
    (if trigger then 1 else 0)%nat.
Proof.
  cbv zeta. destruct (mapInitialized g) eqn:Hinit.
  - rewrite (targetCallBack_unfold env g msg Hinit). cbn [snd andb].
    rewrite existsb_app, count_occ_app.
    destruct (plan_log env (set_startGoal g (buffered g msg))) as [Hex Hcount].
    rewrite Hex, Hcount. cbn [startGoal set_startGoal].
    destruct (buffered_length g msg) as [_ Hlen]. rewrite Hlen.
    destruct (Nat.eqb (query (voxelMap g) (goal_of (config g) msg)) 0);
      destruct (Nat.eqb (length (startGoal g)) 1); split; reflexivity.
  - unfold targetCallBack. rewrite Hinit. split; reflexivity.
Qed.

(** X14.  The goal point built from a request keeps the requested x and y.
    When the map is at least two dilation radii high, its height is at
    least the lower bound plus the radius, and it is exactly that when the
    orientation field z is zero.  (In exact arithmetic the height is also
    at most the upper bound minus the radius when the field is at most 1 in
    magnitude; the machine sum can exceed that bound in its last digit, see
    [zGoal_can_exceed_the_upper_margin], so no upper bound is stated.) *)
Theorem goal_height_within_margins (conf : Config) (msg : PoseStamped) :
  let lo := nth 4 (mapBound conf) 0 in
  let hi := nth 5 (mapBound conf) 0 in
  (vx (goal_of conf msg) = pose_position_x msg /\
   vy (goal_of conf msg) = pose_position_y msg) /\
  (2 * dilateRadius conf <= hi - lo ->
   lo + dilateRadius conf <= vz (goal_of conf msg)) /\
  (pose_orientation_z msg = 0 -> vz (goal_of conf msg) = lo + dilateRadius conf).
Proof.
  cbv zeta. split; [split; reflexivity |]. split.
  - intros Hroom. unfold goal_of. cbn [vz].
    pose proof (Rabs_pos (pose_orientation_z msg)) as Hpos. nra.
  - intros Hz. unfold goal_of. cbn [vz]. rewrite Hz, Rabs_R0. ring.
Qed.

Lemma goal_height_within_margins_witness :
  0 + 0.5 <= vz (goal_of Scenario.conf Scenario.request) /\
  vz (goal_of Scenario.conf Scenario.request) = 0 + 0.5.
Proof.
  split.
  - apply (proj1 (proj2 (goal_height_within_margins Scenario.conf Scenario.request))).
    cbn. lra.
  - apply (proj2 (proj2 (goal_height_within_margins Scenario.conf Scenario.request))).
    reflexivity.
Defined.

(** With the map between 0 and 2.5, the radius 0.2 and the orientation
    field 1, the machine computes a height above 2.5 - 0.2. *)
Lemma zGoal_can_exceed_the_upper_margin :
  PrimFloat.ltb (PrimFloat.sub Double.upper Double.radius)
                (Double.zGoal Double.zero Double.upper Double.radius Double.one) = true.
Proof. reflexivity. Qed.

(** ** [mapCallBack] *)

(** X15.  The map is ingested once: after any map message the map is
    marked as initialised, and a later map message, whatever it holds,
    changes nothing.  A map message never touches the goal buffer, the
    trajectory, its start time, the monitor or the configuration. *)
Theorem map_is_ingested_once (ops ops' : MapOps) (g : GlobalPlanner)
        (msg msg' : PointCloud2) :
  let g1 := mapCallBack ops g msg in
  mapInitialized g1 = true /\
  mapCallBack ops' g1 msg' = g1 /\
  startGoal g1 = startGoal g /\ traj g1 = traj g /\ trajStamp g1 = trajStamp g /\
  paChecker g1 = paChecker g /\ config g1 = config g.
Proof.
  cbv zeta.
  assert (H1 : mapInitialized (mapCallBack ops g msg) = true).
  { unfold mapCallBack. destruct (mapInitialized g) eqn:Hinit; cbn; auto. }
  split; [exact H1 |]. split.
  - unfold mapCallBack at 1. rewrite H1. reflexivity.
  - unfold mapCallBack. destruct (mapInitialized g); cbn; repeat split.
Qed.

Lemma ingest_fold (ops : MapOps) (msg : PointCloud2) (l : list nat) :
  forall m : VoxelMap,
    fold_left (ingest_point ops msg) l m =
    fold_left (setOccupied ops) (map (cloud_point msg) (filter (point_is_finite msg) l)) m.
Proof.
  induction l as [| i l IH]; intros m.
  - reflexivity.
  - cbn [fold_left filter]. rewrite IH.
    unfold ingest_point at 1. unfold point_is_finite at 2. cbv zeta.
    destruct (isnan_f (fdata msg (point_step msg / 4 * i + 0)) ||
              isinf_f (fdata msg (point_step msg / 4 * i + 0)) ||
              isnan_f (fdata msg (point_step msg / 4 * i + 1)) ||
              isinf_f (fdata msg (point_step msg / 4 * i + 1)) ||
              isnan_f (fdata msg (point_step msg / 4 * i + 2)) ||
              isinf_f (fdata msg (point_step msg / 4 * i + 2))); reflexivity.
Qed.

Lemma finite_point_coordinates (msg : PointCloud2) (i : nat) :
  point_is_finite msg i = true ->
  exists x y z,
    fdata msg (point_step msg / 4 * i + 0) = FFinite x /\
    fdata msg (point_step msg / 4 * i + 1) = FFinite y /\
    fdata msg (point_step msg / 4 * i + 2) = FFinite z /\
    cloud_point msg i = mkV3 x y z.
Proof.
  unfold point_is_finite, cloud_point. cbv zeta.
  destruct (fdata msg (point_step msg / 4 * i + 0)) as [| n0 | x];
    destruct (fdata msg (point_step msg / 4 * i + 1)) as [| n1 | y];
    destruct (fdata msg (point_step msg / 4 * i + 2)) as [| n2 | z];
    cbn; intros H; try discriminate.
  exists x, y, z. repeat split.
Qed.

(** X16.  The first map message marks as occupied exactly the points of the
    cloud whose three coordinates are finite, in their order, and then
    dilates once; a point with a NaN or an infinite coordinate never
    reaches the map. *)
Theorem map_marks_the_finite_points (ops : MapOps) (g : GlobalPlanner) (msg : PointCloud2) :
  mapInitialized g = false ->
  (let m := fold_left (setOccupied ops) (finite_points msg) (voxelMap g) in
   voxelMap (mapCallBack ops g msg) =
     dilate ops m (ceil (dilateRadius (config g) / getScale ops m))) /\
  (forall p, In p (finite_points msg) ->
     exists i x y z,
       (i < data_size msg / point_step msg)%nat /\
       fdata msg (point_step msg / 4 * i + 0) = FFinite x /\
       fdata msg (point_step msg / 4 * i + 1) = FFinite y /\
       fdata msg (point_step msg / 4 * i + 2) = FFinite z /\
       p = mkV3 x y z).
Proof.
  intros Hinit. split.
  - cbv zeta. unfold mapCallBack. rewrite Hinit. cbn [negb voxelMap set_mapInitialized
      set_voxelMap config]. rewrite ingest_fold. reflexivity.
  - intros p Hp. unfold finite_points in Hp.
    apply in_map_iff in Hp. destruct Hp as (i & Hpi & Hi).
    apply filter_In in Hi. destruct Hi as [Hseq Hfin].
    apply in_seq in Hseq.
    destruct (finite_point_coordinates msg i Hfin) as (x & y & z & H0 & H1 & H2 & Hc).
    exists i, x, y, z. repeat split; try assumption; try lia. congruence.
Qed.

Lemma map_marks_the_finite_points_witness :
  finite_points Scenario.cloud = [mkV3 1 2 3] /\
  voxelMap (mapCallBack Scenario.inert Scenario.booted Scenario.cloud) = Scenario.all_free.
Proof.
  split.
  - reflexivity.
  - rewrite (proj1 (map_marks_the_finite_points Scenario.inert Scenario.booted
                      Scenario.cloud eq_refl)).
    reflexivity.
Defined.

(** ** [process] *)

Lemma Rltb_iff (a b : R) : Rltb a b = true <-> a < b.
Proof.
  unfold Rltb. destruct (Rlt_dec a b); split; intros H;
    try reflexivity; try assumption; try discriminate; contradiction.
Qed.

(** The two ways [process] can go. *)
Lemma process_cases (fl : Flight) (g : GlobalPlanner) :
  let delta := clock fl - trajStamp g in
  (process fl g = (g, None) /\
   (Traj.getPieceNum (traj g) = 0%nat \/ delta <= 0 \/
    Traj.getTotalDuration (traj g) <= delta)) \/
  ((0 < Traj.getPieceNum (traj g))%nat /\
   0 < delta < Traj.getTotalDuration (traj g) /\
   exists quat tm,
     let c' := check (paChecker g) (traj g) quat (Traj.getPos (traj g) delta)
                     (norm (getVel fl (traj g) delta)) delta in
     process fl g = (set_paChecker g c', Some tm) /\
     vis_progress tm = getProgress c' /\ vis_delta tm = delta /\
     vis_safe tm = getSafeFlag c' /\
     pub_speed tm = norm (getVel fl (traj g) delta)).
Proof.
  cbv zeta. unfold process.
  destruct (Nat.ltb 0 (Traj.getPieceNum (traj g))) eqn:Hpieces.
  - apply Nat.ltb_lt in Hpieces.
    destruct (Rgtb (clock fl - trajStamp g) 0) eqn:Hpos.
    + destruct (Rltb (clock fl - trajStamp g) (Traj.getTotalDuration (traj g))) eqn:Hin.
      * right. apply Rgtb_iff in Hpos. apply Rltb_iff in Hin.
        split; [exact Hpieces |]. split; [lra |]. cbn [andb].
        destruct (forward fl _ _ _ _ _) as [[thr quat] omg].
        exists quat. eexists. repeat split.
      * left. split; [reflexivity |]. right. right.
        destruct (Rlt_dec (clock fl - trajStamp g) (Traj.getTotalDuration (traj g)))
          as [Hlt | Hge].
        -- apply Rltb_iff in Hlt. congruence.
        -- lra.
    + left. split; [reflexivity |]. right. left.
      destruct (Rle_dec (clock fl - trajStamp g) 0) as [Hle | Hgt]; [exact Hle |].
      exfalso. assert (Hp : 0 < clock fl - trajStamp g) by lra.
      apply Rgtb_iff in Hp. congruence.
  - left. split; [reflexivity |]. left.
    apply Nat.ltb_ge in Hpieces. lia.
Qed.

(** X17.  [process] changes nothing but the marker and the flag of the
    monitor: goal buffer, map, trajectory, start time and the
    configuration of the monitor stay.  Without a trajectory, or when the
    time since the start is not strictly between 0 and the total duration,
    it changes nothing at all and publishes nothing. *)
Theorem process_touches_only_the_monitor (fl : Flight) (g : GlobalPlanner) :
  let g' := fst (process fl g) in
  (startGoal g' = startGoal g /\ voxelMap g' = voxelMap g /\
   mapInitialized g' = mapInitialized g /\ config g' = config g /\
   traj g' = traj g /\ trajStamp g' = trajStamp g /\
   a_max (paChecker g') = a_max (paChecker g) /\
   max_dist (paChecker g') = max_dist (paChecker g) /\
   angle (paChecker g') = angle (paChecker g)) /\
  (Traj.getPieceNum (traj g) = 0%nat \/ clock fl - trajStamp g <= 0 \/
   Traj.getTotalDuration (traj g) <= clock fl - trajStamp g ->
   process fl g = (g, None)).
Proof.
  cbv zeta.
  destruct (process_cases fl g) as [[Heq Hidle] | (Hp & Hd & quat & tm & Heq & _)].
  - rewrite Heq. cbn [fst]. split; [repeat split | intros _; reflexivity].
  - cbv zeta in Heq. rewrite Heq. cbn [fst]. split.
    + cbn [startGoal voxelMap mapInitialized config traj trajStamp paChecker set_paChecker].
      destruct (check_config (paChecker g) (traj g) quat
                  (Traj.getPos (traj g) (clock fl - trajStamp g))
                  (norm (getVel fl (traj g) (clock fl - trajStamp g)))
                  (clock fl - trajStamp g)) as (Ha & Hm & Hg).
      repeat split; assumption.
    + intros [H0 | [Hle | Hge]]; [lia | lra | lra].
Qed.

Lemma process_touches_only_the_monitor_witness :
  process Scenario.cruising Scenario.booted = (Scenario.booted, None).
Proof.
  apply (proj2 (process_touches_only_the_monitor Scenario.cruising Scenario.booted)).
  left. reflexivity.
Defined.

Lemma check_progress_le (c : Pa_checker) (traj : Trajectory) (quat : Vector4d)
      (pos : Vector3d) (speed delta : R) :
  delta <= Traj.getTotalDuration traj ->
  progress_t c <= Traj.getTotalDuration traj ->
  progress_t (check c traj quat pos speed delta) <= Traj.getTotalDuration traj.
Proof.
  intros Hd Hp. unfold check. apply scan_progress_le. apply clamp_le; assumption.
Qed.

(** X18.  When [process] publishes, the time since the start that it shows
    lies strictly between 0 and the total duration, the progress it shows
    is the marker of the monitor after the call of [check] and is not
    behind that time, the flag it shows is the flag of the monitor, and the
    speed it publishes is not negative. *)
Theorem process_publishes_the_marker (fl : Flight) (g : GlobalPlanner) (tm : Telemetry) :
  snd (process fl g) = Some tm ->
  vis_delta tm = clock fl - trajStamp g /\
  0 < vis_delta tm < Traj.getTotalDuration (traj g) /\
  vis_progress tm = getProgress (paChecker (fst (process fl g))) /\
  vis_delta tm <= vis_progress tm /\
  vis_safe tm = getSafeFlag (paChecker (fst (process fl g))) /\
  0 <= pub_speed tm.
Proof.
  intros Hsome.
  destruct (process_cases fl g) as [[Heq _] | (Hp & Hd & quat & tm' & Heq & Hvp & Hvd & Hvs & Hsp)].
  - rewrite Heq in Hsome. discriminate.
  - cbv zeta in Heq, Hvp, Hvs. rewrite Heq in Hsome. cbn [snd] in Hsome.
    injection Hsome as Htm. subst tm'. rewrite Heq. cbn [fst paChecker set_paChecker].
    rewrite Hvd, Hvp, Hvs, Hsp. unfold getProgress.
    pose proof (clamp_ge_delta (paChecker g) (clock fl - trajStamp g)) as Hc.
    pose proof (check_progress_ge_clamp (paChecker g) (traj g) quat
                  (Traj.getPos (traj g) (clock fl - trajStamp g))
                  (norm (getVel fl (traj g) (clock fl - trajStamp g)))
                  (clock fl - trajStamp g)) as Hg.
    repeat split; try lra. apply norm_nonneg.
Qed.

Lemma Rltb_true (a b : R) : a < b -> Rltb a b = true.
Proof. apply Rltb_iff. Qed.

Lemma process_cruising_publishes :
  exists tm, snd (process Scenario.cruising (Scenario.flying Scenario.all_free)) = Some tm.
Proof.
  unfold process.
  cbn [traj trajStamp Scenario.flying Scenario.cruising clock Scenario.along_x
       Traj.getPieceNum length Nat.ltb Nat.leb].
  rewrite Rgtb_true by lra.
  rewrite Rltb_true by (cbn; lra).
  cbn [andb forward]. eexists. reflexivity.
Qed.

Lemma process_publishes_the_marker_witness :
  exists tm,
    snd (process Scenario.cruising (Scenario.flying Scenario.all_free)) = Some tm /\
    vis_delta tm <= vis_progress tm.
Proof.
  destruct process_cruising_publishes as [tm Htm].
  exists tm. split; [exact Htm |].
  apply (process_publishes_the_marker Scenario.cruising
           (Scenario.flying Scenario.all_free) tm Htm).
Defined.

(** ** Runs of the node *)

Lemma run_ind (P : GlobalPlanner -> Prop) :
  (forall g ev, P g -> P (step g ev)) ->
  forall evs g, P g -> P (run g evs).
Proof.
  intros Hstep evs. induction evs as [| ev evs IH]; intros g Hg.
  - exact Hg.
  - cbn. apply IH. apply Hstep. exact Hg.
Qed.

Lemma mapCallBack_frame (ops : MapOps) (g : GlobalPlanner) (msg : PointCloud2) :
  startGoal (mapCallBack ops g msg) = startGoal g /\
  traj (mapCallBack ops g msg) = traj g /\
  trajStamp (mapCallBack ops g msg) = trajStamp g /\
  paChecker (mapCallBack ops g msg) = paChecker g /\
  config (mapCallBack ops g msg) = config g.
Proof. unfold mapCallBack. destruct (mapInitialized g); cbn; repeat split. Qed.

Lemma plan_unchanged_or_cleared (env : Planner) (g : GlobalPlanner) :
  fst (plan env g) = g \/
  paChecker (fst (plan env g)) = pa_checker.clear (paChecker g).
Proof. plan_cases; cbn; auto. Qed.

Lemma targetCallBack_unchanged_or_cleared (env : Planner) (g : GlobalPlanner)
      (msg : PoseStamped) :
  (traj (fst (targetCallBack env g msg)) = traj g /\
   paChecker (fst (targetCallBack env g msg)) = paChecker g) \/
  paChecker (fst (targetCallBack env g msg)) = pa_checker.clear (paChecker g).
Proof.
  destruct (mapInitialized g) eqn:Hinit.
  - rewrite (targetCallBack_unfold env g msg Hinit). cbn [fst].
    destruct (plan_unchanged_or_cleared env (set_startGoal g (buffered g msg))) as [H | H].
    + left. rewrite H. split; reflexivity.
    + right. rewrite H. reflexivity.
  - unfold targetCallBack. rewrite Hinit. left. split; reflexivity.
Qed.

Lemma step_marker_in_domain (g : GlobalPlanner) (ev : Event) :
  marker_in_domain g -> marker_in_domain (step g ev).
Proof.
  unfold marker_in_domain. intros [H0 HT]. destruct ev as [ops msg | env msg | fl]; cbn [step].
  - destruct (mapCallBack_frame ops g msg) as (_ & Ht & _ & Hp & _).
    rewrite Ht, Hp. split; assumption.
  - destruct (targetCallBack_unchanged_or_cleared env g msg) as [[Ht Hp] | Hc].
    + rewrite Ht, Hp. split; assumption.
    + rewrite Hc. cbn [progress_t pa_checker.clear]. split; [lra | apply Rmax_l].
  - destruct (process_cases fl g) as [[Heq _] | (Hp & Hd & quat & tm & Heq & _)].
    + rewrite Heq. split; assumption.
    + cbv zeta in Heq. rewrite Heq. cbn [fst paChecker traj set_paChecker].
      assert (Hmax : Rmax 0 (Traj.getTotalDuration (traj g)) = Traj.getTotalDuration (traj g)).
      { apply Rmax_right. lra. }
      rewrite Hmax in *. split.
      * pose proof (check_progress_ge_old (paChecker g) (traj g) quat
                      (Traj.getPos (traj g) (clock fl - trajStamp g))
                      (norm (getVel fl (traj g) (clock fl - trajStamp g)))
                      (clock fl - trajStamp g)). lra.
      * apply check_progress_le; lra.
Qed.

Lemma make_marker_in_domain (conf : Config) (map0 : VoxelMap) (stamp0 : R) :
  marker_in_domain (GlobalPlanner.make conf map0 stamp0).
Proof.
  unfold marker_in_domain. cbn. split; [lra | apply Rmax_l].
Qed.

(** X19.  In every state the node reaches from its constructor, by any
    sequence of map messages, goal requests and runs of [process], the
    marker of the monitor is inside the domain of the installed trajectory:
    it is not negative and not past the total duration (it is 0 when no
    trajectory is installed). *)
Theorem marker_stays_in_domain (conf : Config) (map0 : VoxelMap) (stamp0 : R)
        (evs : list Event) :
  let g := run (GlobalPlanner.make conf map0 stamp0) evs in
  0 <= getProgress (paChecker g) <= Rmax 0 (Traj.getTotalDuration (traj g)).
Proof.
  cbv zeta. apply (run_ind marker_in_domain step_marker_in_domain).
  apply make_marker_in_domain.
Qed.

(** X20.  In every state the node reaches from its constructor the goal
    buffer holds at most two points. *)
Theorem goal_buffer_never_exceeds_two (conf : Config) (map0 : VoxelMap) (stamp0 : R)
        (evs : list Event) :
  (length (startGoal (run (GlobalPlanner.make conf map0 stamp0) evs)) <= 2)%nat.
Proof.
  apply (run_ind (fun g => (length (startGoal g) <= 2)%nat)).
  - intros g ev Hg. destruct ev as [ops msg | env msg | fl]; cbn [step].
    + destruct (mapCallBack_frame ops g msg) as (Hs & _). rewrite Hs. exact Hg.
    + destruct (mapInitialized g) eqn:Hinit.
      * rewrite (targetCallBack_unfold env g msg Hinit). cbn [fst].
        rewrite plan_keeps_startGoal. cbn [startGoal set_startGoal].
        apply buffered_length.
      * unfold targetCallBack. rewrite Hinit. exact Hg.
    + destruct (process_cases fl g) as [[Heq _] | (_ & _ & quat & tm & Heq & _)].
      * rewrite Heq. exact Hg.
      * cbv zeta in Heq. rewrite Heq. exact Hg.
  - cbn. lia.
Qed.

(** X21.  In every state the node reaches from its constructor the monitor
    has the configuration it was constructed with: cone angle 40, maximum
    range 4, maximum deceleration 4. *)
Theorem monitor_configuration_is_constant (conf : Config) (map0 : VoxelMap) (stamp0 : R)
        (evs : list Event) :
  let c := paChecker (run (GlobalPlanner.make conf map0 stamp0) evs) in
  angle c = 40 /\ max_dist c = 4 /\ a_max c = 4.
Proof.
  cbv zeta.
  apply (run_ind (fun g => angle (paChecker g) = 40 /\ max_dist (paChecker g) = 4 /\
                           a_max (paChecker g) = 4)).
  - intros g ev Hg. destruct ev as [ops msg | env msg | fl]; cbn [step].
    + destruct (mapCallBack_frame ops g msg) as (_ & _ & _ & Hp & _). rewrite Hp. exact Hg.
    + destruct (targetCallBack_unchanged_or_cleared env g msg) as [[_ Hp] | Hc].
      * rewrite Hp. exact Hg.
      * rewrite Hc. exact Hg.
    + destruct (process_cases fl g) as [[Heq _] | (_ & _ & quat & tm & Heq & _)].
      * rewrite Heq. exact Hg.
      * cbv zeta in Heq. rewrite Heq. cbn [fst paChecker set_paChecker].
        destruct (check_config (paChecker g) (traj g) quat
                    (Traj.getPos (traj g) (clock fl - trajStamp g))
                    (norm (getVel fl (traj g) (clock fl - trajStamp g)))
                    (clock fl - trajStamp g)) as (Ha & Hm & Han).
        rewrite Ha, Hm, Han. exact Hg.
  - cbn. repeat split.
Qed.

Lemma run_marker_in_domain (conf : Config) (map0 : VoxelMap) (stamp0 : R)
      (evs : list Event) :
  marker_in_domain (run (GlobalPlanner.make conf map0 stamp0) evs).
Proof.
  apply (run_ind marker_in_domain step_marker_in_domain).
  apply make_marker_in_domain.
Qed.

(** X22.  Whenever [process] publishes in a state the node has reached from
    its constructor, the progress it shows lies between the time since the
    start and the total duration of the installed trajectory: the caller
    keeps the call of [check] within the domain of the trajectory. *)
Theorem published_progress_within_flight (conf : Config) (map0 : VoxelMap) (stamp0 : R)
        (evs : list Event) (fl : Flight) (tm : Telemetry) :
  let g := run (GlobalPlanner.make conf map0 stamp0) evs in
  snd (process fl g) = Some tm ->
  0 < vis_delta tm /\
  vis_delta tm <= vis_progress tm <= Traj.getTotalDuration (traj g).
Proof.
  cbv zeta. intros Hsome.
  pose proof (run_marker_in_domain conf map0 stamp0 evs) as [H0 HT].
  set (g := run (GlobalPlanner.make conf map0 stamp0) evs) in *.
  destruct (process_cases fl g)
    as [[Heq _] | (Hp & Hd & quat & tm' & Heq & Hvp & Hvd & _)].
  - rewrite Heq in Hsome. discriminate.
  - cbv zeta in Heq, Hvp. rewrite Heq in Hsome. cbn [snd] in Hsome.
    injection Hsome as Htm. subst tm'. rewrite Hvd, Hvp. unfold getProgress.
    assert (Hmax : Rmax 0 (Traj.getTotalDuration (traj g)) = Traj.getTotalDuration (traj g)).
    { apply Rmax_right. lra. }
    rewrite Hmax in HT.
    pose proof (clamp_ge_delta (paChecker g) (clock fl - trajStamp g)) as Hc.
    pose proof (check_progress_ge_clamp (paChecker g) (traj g) quat
                  (Traj.getPos (traj g) (clock fl - trajStamp g))
                  (norm (getVel fl (traj g) (clock fl - trajStamp g)))
                  (clock fl - trajStamp g)) as Hg.
    pose proof (check_progress_le (paChecker g) (traj g) quat
                  (Traj.getPos (traj g) (clock fl - trajStamp g))
                  (norm (getVel fl (traj g) (clock fl - trajStamp g)))
                  (clock fl - trajStamp g) ltac:(lra) HT) as Hle.
    repeat split; lra.
Qed.

(** After the map message and two requests for free points, the flight
    along x is installed with start time 8 and a cleared monitor. *)
Lemma run_two_goals :
  run Scenario.booted Scenario.two_goals =
    mkGlobalPlanner Scenario.conf true Scenario.all_free
                    [goal_of Scenario.conf Scenario.request;
                     goal_of Scenario.conf Scenario.request]
                    Scenario.along_x (mkPa_checker 0 4 4 false 40) 8.
Proof. reflexivity. Qed.

Lemma published_progress_within_flight_witness :
  exists tm,
    snd (process Scenario.cruising (run Scenario.booted Scenario.two_goals)) = Some tm /\
    vis_progress tm <=
      Traj.getTotalDuration (traj (run Scenario.booted Scenario.two_goals)).
Proof.
  assert (Hpub : exists tm,
             snd (process Scenario.cruising (run Scenario.booted Scenario.two_goals)) =
               Some tm).
  { rewrite run_two_goals. unfold process.
    cbn [traj trajStamp Scenario.cruising clock Scenario.along_x
         Traj.getPieceNum length Nat.ltb Nat.leb].
    rewrite Rgtb_true by lra.
    rewrite Rltb_true by (cbn; lra).
    cbn [andb forward]. eexists. reflexivity. }
  destruct Hpub as [tm Htm]. exists tm. split; [exact Htm |].
  apply (published_progress_within_flight Scenario.conf Scenario.all_free 0
           Scenario.two_goals Scenario.cruising tm Htm).
Defined.

(** X23.  Once the map is initialised, no sequence of map messages, goal
    requests and runs of [process] changes the map or the configuration:
    later map messages are not ingested. *)
Theorem map_is_fixed_once_initialized (g : GlobalPlanner) (evs : list Event) :
  mapInitialized g = true ->
  mapInitialized (run g evs) = true /\ voxelMap (run g evs) = voxelMap g /\
  config (run g evs) = config g.
Proof.
  intros Hinit.
  apply (run_ind (fun g' => mapInitialized g' = true /\ voxelMap g' = voxelMap g /\
                            config g' = config g)); [| repeat split; assumption].
  intros g1 ev (Hi & Hm & Hc). destruct ev as [ops msg | env msg | fl]; cbn [step].
  - unfold mapCallBack. rewrite Hi. cbn [negb]. repeat split; assumption.
  - rewrite (targetCallBack_unfold env g1 msg Hi). cbn [fst].
    set (g2 := set_startGoal g1 (buffered g1 msg)).
    assert (Hframe : mapInitialized (fst (plan env g2)) = mapInitialized g2 /\
                     voxelMap (fst (plan env g2)) = voxelMap g2 /\
                     config (fst (plan env g2)) = config g2).
    { clearbody g2. plan_cases; cbn; repeat split. }
    destruct Hframe as (H1 & H2 & H3). rewrite H1, H2, H3. repeat split; assumption.
  - destruct (process_cases fl g1) as [[Heq _] | (_ & _ & quat & tm & Heq & _)].
    + rewrite Heq. repeat split; assumption.
    + cbv zeta in Heq. rewrite Heq. repeat split; assumption.
Qed.

Lemma map_is_fixed_once_initialized_witness :
  voxelMap (run (Scenario.flying Scenario.all_free)
                [EvMap Scenario.inert Scenario.cloud]) = Scenario.all_free.
Proof.
  apply (map_is_fixed_once_initialized (Scenario.flying Scenario.all_free)
           [EvMap Scenario.inert Scenario.cloud]).
  reflexivity.
Defined.

(** X24.  Until the first map message arrives the node does nothing: goal
    requests are ignored and [process] has no trajectory to follow, so
    after any sequence of goal requests and runs of [process] the state is
    the one the constructor built. *)
Theorem nothing_happens_before_the_map (conf : Config) (map0 : VoxelMap) (stamp0 : R)
        (evs : list Event) :
  forallb (fun ev => negb (is_map_event ev)) evs = true ->
  run (GlobalPlanner.make conf map0 stamp0) evs = GlobalPlanner.make conf map0 stamp0.
Proof.
  induction evs as [| ev evs IH]; intros Hno.
  - reflexivity.
  - cbn [forallb] in Hno. apply andb_true_iff in Hno. destruct Hno as [Hev Hrest].
    cbn [run fold_left].
    assert (Hstep : step (GlobalPlanner.make conf map0 stamp0) ev =
                    GlobalPlanner.make conf map0 stamp0).
    { destruct ev as [ops msg | env msg | fl]; [discriminate | reflexivity | reflexivity]. }
    rewrite Hstep. apply IH. exact Hrest.
Qed.

Lemma nothing_happens_before_the_map_witness :
  run Scenario.booted [EvTarget Scenario.succeeding Scenario.request;
                       EvProcess Scenario.cruising] = Scenario.booted.
Proof.
  apply (nothing_happens_before_the_map Scenario.conf Scenario.all_free 0).
  reflexivity.
Defined.
